(** * ONVIF event parsers (homeassistant/components/onvif/parsers.py)

    A shallow embedding of the parser module: the Python values a
    notification is made of, the exceptions the attribute and item
    accesses raise, the [try ... except (AttributeError, KeyError)]
    boundary of every parser, the topic registry, and the properties of
    the parsers' results. *)

From Stdlib Require Import ZArith String Ascii List SpecFloat.
From stdpp Require Import base option list strings gmap.

Set Default Proof Using "Type".

Local Open Scope string_scope.
Local Open Scope Z_scope.

(** ** Exceptions and results

    A Python expression either yields a value or raises.  Only the
    exception classes that the accesses of this module can raise are
    listed. *)

Inductive exn : Set :=
| AttributeError
| KeyError
| IndexError
| TypeError
| ValueError
| OverflowError.

Global Instance exn_eq_dec : EqDecision exn.
Proof. solve_decision. Defined.

Inductive res (A : Type) : Type :=
| Ok (a : A)
| Raise (e : exn).
Arguments Ok {A} a.
Arguments Raise {A} e.

(** Sequencing: the first exception raised ends the computation. *)
Definition bind {A B} (m : res A) (f : A -> res B) : res B :=
  match m with
  | Ok a => f a
  | Raise e => Raise e
  end.

Declare Scope res_scope.
Delimit Scope res_scope with res.
Bind Scope res_scope with res.
Notation "m ≫= f" := (bind m f)
  (at level 60, right associativity) : res_scope.
Notation "x ← y ; z" := (bind y (fun x => z))
  (at level 20, y at level 100, z at level 200, only parsing) : res_scope.
Notation "' x ← y ; z" := (bind y (fun x => z))
  (at level 20, x pattern, y at level 100, z at level 200, only parsing) : res_scope.
Local Open Scope res_scope.

(** [try: body except caught: handler]. *)
Definition try_except {A} (body : res A) (caught : list exn) (handler : res A) : res A :=
  match body with
  | Ok a => Ok a
  | Raise e => if bool_decide (e ∈ caught) then handler else Raise e
  end.

(** ** Python values of a notification

    What the SOAP client hands to the parsers: [None], strings, lists, and
    record objects.  A record object keeps its fields in an ordered
    dictionary: an attribute is a field ([AttributeError] otherwise),
    subscripting looks a key up in that dictionary ([KeyError]),
    iterating yields the field names in order, and equality is defined
    on records, which leaves them without a hash. *)

#[local] Unset Elimination Schemes.
Inductive pyval : Type :=
| PNone
| PStr (s : string)
| PList (l : list pyval)
| PObj (fields : list (string * pyval)).
#[local] Set Elimination Schemes.

(** [d.get(k)] on an ordered list of fields. *)
Fixpoint assoc {A} (k : string) (fields : list (string * A)) : option A :=
  match fields with
  | [] => None
  | (k', v) :: rest => if String.eqb k k' then Some v else assoc k rest
  end.

(** [o.a] for the attribute names this module reads ([Message],
    [_value_1], [Source], [Data], [SimpleItem], [Name], [Value]): none of
    them is an attribute of [None], of a string or of a list. *)
Definition getattr (o : pyval) (a : string) : res pyval :=
  match o with
  | PObj fields =>
      match assoc a fields with
      | Some v => Ok v
      | None => Raise AttributeError
      end
  | _ => Raise AttributeError
  end.

(** The one-character strings of [s], as [iter(s)] yields them. *)
Fixpoint chars (s : string) : list pyval :=
  match s with
  | EmptyString => []
  | String c rest => PStr (String c EmptyString) :: chars rest
  end.

(** [o[i]] for a non-negative integer [i]: a list or a string is indexed
    by position, [None] is not subscriptable, and a record object looks
    the integer up among its field names, where it never is. *)
Definition getitem (o : pyval) (i : nat) : res pyval :=
  match o with
  | PNone => Raise TypeError
  | PStr s =>
      match chars s !! i with
      | Some c => Ok c
      | None => Raise IndexError
      end
  | PList l =>
      match l !! i with
      | Some v => Ok v
      | None => Raise IndexError
      end
  | PObj _ => Raise KeyError
  end.

(** The elements [for x in o] runs over. *)
Definition py_iter (o : pyval) : res (list pyval) :=
  match o with
  | PNone => Raise TypeError
  | PStr s => Ok (chars s)
  | PList l => Ok l
  | PObj fields => Ok (map (fun kv => PStr (fst kv)) fields)
  end.

(** [for x in items: st = body(st, x)] from the state [st], stopping at
    the first exception. *)
Fixpoint for_each {S} (st : S) (items : list pyval) (body : S -> pyval -> res S) : res S :=
  match items with
  | [] => Ok st
  | x :: rest => st' ← body st x; for_each st' rest body
  end.

(** [v == s] for a string literal [s]: only an equal string is equal. *)
Definition py_eq_str (v : pyval) (s : string) : bool :=
  match v with
  | PStr s' => String.eqb s' s
  | _ => false
  end.

(** [v in [s1, ..., sn]] for string literals. *)
Definition py_in_strs (v : pyval) (l : list string) : bool :=
  existsb (py_eq_str v) l.

(** Whether [hash(v)] succeeds: lists are unhashable, and so are the
    record objects, which define equality without a hash. *)
Definition hashable (v : pyval) : bool :=
  match v with
  | PNone | PStr _ => true
  | PList _ | PObj _ => false
  end.

(** ** Video source normalization *)

Definition VIDEO_SOURCE_MAPPING : gmap string string :=
  {[ "vsconf" := "VideoSourceToken" ]}.

(** [VIDEO_SOURCE_MAPPING.get(source, source)]: the key is hashed first;
    every key of the mapping is a string, so no other value is found. *)
Definition _normalize_video_source (source : pyval) : res pyval :=
  if hashable source then
    match source with
    | PStr s => Ok (PStr (default s (VIDEO_SOURCE_MAPPING !! s)))
    | _ => Ok source
    end
  else Raise TypeError.

(** ** Floats: [float(s)], comparison, product and [int(f)]

    Python floats are IEEE 754 binary64 numbers: the [spec_float]s of
    precision 53 and exponent bound 1024, with the round-to-nearest-even
    operations of [SpecFloat].  The reader below is [float] on ASCII
    texts; what [float] makes of a text with characters beyond ASCII,
    where it also accepts the digits and spaces of other scripts, is left
    to a parameter of the parsers. *)

Module PyFloat.

Definition prec : Z := 53.
Definition emax : Z := 1024.

(** The white space that [float] strips from both ends of an ASCII
    string: tab, line feed, vertical tab, form feed, carriage return and
    space. *)
Definition is_space (c : ascii) : bool :=
  let n := nat_of_ascii c in
  ((9 <=? n) && (n <=? 13) || (n =? 32))%nat.

Fixpoint lstrip (l : list ascii) : list ascii :=
  match l with
  | c :: rest => if is_space c then lstrip rest else l
  | [] => []
  end.

Definition strip (l : list ascii) : list ascii :=
  rev (lstrip (rev (lstrip l))).

Definition digit_of (c : ascii) : option Z :=
  let n := nat_of_ascii c in
  if ((48 <=? n) && (n <=? 57))%nat then Some (Z.of_nat n - 48) else None.

Definition lower (c : ascii) : ascii :=
  let n := nat_of_ascii c in
  if ((65 <=? n) && (n <=? 90))%nat then ascii_of_nat (n + 32) else c.

(** The rest of a [digitpart]: digits, each optionally preceded by one
    underscore.  [acc] is the number read so far and [k] counts its
    digits; what is left of the input is returned. *)
Fixpoint digits_tail (acc : Z) (k : Z) (l : list ascii) : Z * Z * list ascii :=
  match l with
  | c :: rest =>
      match digit_of c with
      | Some d => digits_tail (10 * acc + d) (k + 1) rest
      | None =>
          if Ascii.eqb c "_" then
            match rest with
            | c' :: rest' =>
                match digit_of c' with
                | Some d => digits_tail (10 * acc + d) (k + 1) rest'
                | None => (acc, k, l)
                end
            | [] => (acc, k, l)
            end
          else (acc, k, l)
      end
  | [] => (acc, k, l)
  end.

(** [digitpart ::= digit (["_"] digit)*] *)
Definition digitpart (acc : Z) (l : list ascii) : option (Z * Z * list ascii) :=
  match l with
  | c :: rest =>
      match digit_of c with
      | Some d => Some (digits_tail (10 * acc + d) 1 rest)
      | None => None
      end
  | [] => None
  end.

Definition sign (l : list ascii) : bool * list ascii :=
  match l with
  | "-"%char :: rest => (true, rest)
  | "+"%char :: rest => (false, rest)
  | _ => (false, l)
  end.

(** [[exponent]] and the end of the input: the decimal exponent of a
    mantissa with [k] digits after the point. *)
Definition exponent (m k : Z) (l : list ascii) : option (Z * Z) :=
  match l with
  | [] => Some (m, - k)
  | c :: rest =>
      if Ascii.eqb (lower c) "e" then
        let '(neg, rest) := sign rest in
        match digitpart 0 rest with
        | Some (e, _, []) => Some (m, (if neg then - e else e) - k)
        | _ => None
        end
      else None
  end.

(** [floatnumber ::= ([digitpart] "." digitpart | digitpart ["."]) [exponent]],
    as the pair [(m, e)] that stands for [m * 10^e]. *)
Definition floatnumber (l : list ascii) : option (Z * Z) :=
  match digitpart 0 l with
  | Some (m, _, rest) =>
      match rest with
      | "."%char :: rest' =>
          match digitpart m rest' with
          | Some (m', k, rest'') => exponent m' k rest''
          | None => exponent m 0 rest'
          end
      | _ => exponent m 0 rest
      end
  | None =>
      match l with
      | "."%char :: rest' =>
          match digitpart 0 rest' with
          | Some (m', k, rest'') => exponent m' k rest''
          | None => None
          end
      | _ => None
      end
  end.

(** The binary64 number nearest to [m * 10^e] (ties to even), [m >= 0]. *)
Definition of_decimal (neg : bool) (m e : Z) : spec_float :=
  if m =? 0 then S754_zero neg
  else if 0 <=? e then
    binary_normalize prec emax ((if neg then - m else m) * 10 ^ e) 0 neg
  else
    SFdiv prec emax (S754_finite neg (Z.to_pos m) 0)
                    (S754_finite false (Z.to_pos (10 ^ (- e))) 0).

Definition of_Z (n : Z) : spec_float := binary_normalize prec emax n 0 false.

(** Whether every character of [s] is an ASCII character. *)
Definition is_ascii (s : string) : bool :=
  forallb (fun c => (nat_of_ascii c <? 128)%nat) (list_ascii_of_string s).

(** [float(s)] for an ASCII string, [None] standing for [ValueError]:
    [[sign] (floatnumber | "inf" | "infinity" | "nan")] between
    optional white space, letters in either case. *)
Definition of_string (s : string) : option spec_float :=
  let '(neg, l) := sign (strip (list_ascii_of_string s)) in
  let w := string_of_list_ascii (map lower l) in
  if String.eqb w "inf" || String.eqb w "infinity" then Some (S754_infinity neg)
  else if String.eqb w "nan" then Some S754_nan
  else
    match floatnumber l with
    | Some (m, e) => Some (of_decimal neg m e)
    | None => None
    end.

Definition leb (x y : spec_float) : bool := SFleb x y.
Definition mul (x y : spec_float) : spec_float := SFmul prec emax x y.

(** [int(f)]: truncation towards zero. *)
Definition to_int (f : spec_float) : res Z :=
  match f with
  | S754_zero _ => Ok 0
  | S754_infinity _ => Raise OverflowError
  | S754_nan => Raise ValueError
  | S754_finite s m e =>
      let a := Z.shiftl (Z.pos m) e in
      Ok (if s then - a else a)
  end.

End PyFloat.

(** ** Events *)

(** [homeassistant.const.EntityCategory] *)
Inductive EntityCategory : Set := CONFIG | DIAGNOSTIC.

(** [m >. "a"] reads the attribute [a] of the value of [m], and [m >[i]]
    its item [i]: [Ok o >. "Source" >. "SimpleItem" >[0] >. "Value"] is
    [o.Source.SimpleItem[0].Value]. *)
#[local] Set Warnings "-postfix-notation-not-level-1".
Notation "m >. a" := (bind m (fun o => getattr o a))
  (at level 40, left associativity, format "m  >.  a") : res_scope.
Notation "m >[ i ]" := (bind m (fun o => getitem o i))
  (at level 40, left associativity, format "m  >[ i ]") : res_scope.

(** [if source.Name == name: x = f(source.Value)], as the new [x]. *)
Definition assign_if_named (source : pyval) (name : string)
    (f : pyval -> res pyval) (x : pyval) : res pyval :=
  n ← getattr source "Name";
  if py_eq_str n name then getattr source "Value" ≫= f else Ok x.

(** The expressions every parser starts from. *)
Definition value_1_of (msg : pyval) : res pyval :=
  Ok msg >. "Message" >. "_value_1".
Definition source_anchor (value_1 : pyval) : res pyval :=
  Ok value_1 >. "Source" >. "SimpleItem" >[0] >. "Value".
Definition data_anchor (value_1 : pyval) : res pyval :=
  Ok value_1 >. "Data" >. "SimpleItem" >[0] >. "Value".
Definition source_items (value_1 : pyval) : res (list pyval) :=
  Ok value_1 >. "Source" >. "SimpleItem" ≫= py_iter.

(** A well-formed simple item, [{Name: name, Value: value}]. *)
Definition simple_item (nv : string * string) : pyval :=
  PObj [("Name", PStr nv.1); ("Value", PStr nv.2)].

(** A well-formed notification with the given source and data items,
    and its [Message._value_1]. *)
Definition mk_value_1 (source data : list (string * string)) : pyval :=
  PObj [("Source", PObj [("SimpleItem", PList (map simple_item source))]);
        ("Data", PObj [("SimpleItem", PList (map simple_item data))])].

Definition mk_message (source data : list (string * string)) : pyval :=
  PObj [("Message", PObj [("_value_1", mk_value_1 source data)])].

(** The value the loop [for source in items: if source.Name == name:
    x = h(source.Value)] leaves in [x] on well-formed items. *)
Definition picked (name : string) (h : string -> string)
    (items : list (string * string)) (x : pyval) : pyval :=
  fold_left (fun x nv => if String.eqb nv.1 name then PStr (h nv.2) else x) items x.


(** An ASCII character. *)
Definition ascii_char (c : ascii) : Prop := (nat_of_ascii c < 128)%nat.

(** The canonical spelling of a video source token: what
    [VIDEO_SOURCE_MAPPING.get(s, s)] is for a string [s]. *)
Definition normalized (s : string) : string :=
  default s (VIDEO_SOURCE_MAPPING !! s).

(** The value of the last of the items named [name], the empty string
    when no item has that name. *)
Definition last_value (name : string) (items : list (string * string)) : string :=
  match find (fun nv => String.eqb nv.1 name) (rev items) with
  | Some nv => nv.2
  | None => ""
  end.

(** ** Concrete notifications

    A text for values in the manner of the record objects' [repr], a
    stand-in for the time stamp functions, over seconds since the epoch,
    and a few messages, to run the parsers on. *)

Fixpoint show (v : pyval) : string :=
  match v with
  | PNone => "None"
  | PStr s => "'" +:+ s +:+ "'"
  | PList l =>
      "[" +:+ (fix items (l : list pyval) : string :=
                 match l with
                 | [] => ""
                 | x :: rest => show x +:+ ", " +:+ items rest
                 end) l +:+ "]"
  | PObj fields =>
      "{" +:+ (fix items (l : list (string * pyval)) : string :=
                 match l with
                 | [] => ""
                 | (k, x) :: rest => "'" +:+ k +:+ "': " +:+ show x +:+ ", " +:+ items rest
                 end) fields +:+ "}"
  end.

(** Rejects the all-zero date some cameras send, whose year is out of
    range, finds no date in other texts but the epoch's. *)
Definition sample_parse_datetime (v : pyval) : res (option Z) :=
  match v with
  | PStr s =>
      if String.eqb s "0000-00-00T00:00:00Z" then Raise ValueError
      else if String.eqb s "1970-01-01T00:00:00Z" then Ok (Some 0)
      else Ok None
  | _ => Raise TypeError
  end.

Definition sample_as_local (t : Z) : res Z := Ok t.

(** A stand-in for [float] on the texts beyond ASCII, none of which
    occurs in the messages below. *)
Definition sample_float_beyond_ascii (s : string) : option spec_float := None.

Definition motion_message (state : string) : pyval :=
  mk_message [("Source", "VideoSourceToken_1")] [("State", state)].

Definition rule_message (rule state : string) : pyval :=
  mk_message [("VideoSourceConfigurationToken", "vsconf");
              ("VideoAnalyticsConfigurationToken", "va");
              ("Rule", rule)] [("IsMotion", state)].

Definition monitoring_message (name value : string) : pyval :=
  mk_message [] [(name, value)].

Section Parsers.

(** What the module takes from outside: the type of time stamps with
    [dt_util.parse_datetime] and [dt_util.as_local], and the text
    [str(v)] of a list or of a record object. *)
Variable datetime : Type.
Variable parse_datetime : pyval -> res (option datetime).
Variable as_local : datetime -> res datetime.
Variable render : pyval -> string.

(** [float(s)] for a text [s] with characters beyond ASCII, [None]
    standing for [ValueError]. *)
Variable float_beyond_ascii : string -> option spec_float.

(** The payload of an event: a value taken from the notification as it
    is ([None] is [VPy PNone]), a boolean, an integer or a time stamp. *)
Inductive event_value : Type :=
| VPy (v : pyval)
| VBool (b : bool)
| VInt (n : Z)
| VDatetime (d : datetime).

(** Modelled from the spec: the declaration of [Event] (models.py) is not
    part of the sources at hand; its fields are those of the data model,
    in the order the parsers pass them. *)
Record Event : Type := {
  event_uid : string;
  event_name : string;
  event_platform : string;
  device_class : option string;
  unit_of_measurement : option string;
  value : event_value;
  entity_category : option EntityCategory;
  entity_enabled : bool
}.

(** Modelled from the spec: the declaration of [Event] (models.py) is
    not part of the sources at hand; "entity_enabled: boolean, defaults
    true", and the optional fields before it default to absent. *)
Definition default_entity_enabled : bool := true.

(** [Event(uid, name, platform, device_class, unit, value, ...)]: the
    last argument is [None] where the call leaves [entity_enabled] out. *)
Definition new_Event (uid name platform : string)
    (device_class unit_of_measurement : option string) (value : event_value)
    (entity_category : option EntityCategory) (entity_enabled : option bool) : Event :=
  {| event_uid := uid; event_name := name; event_platform := platform;
     device_class := device_class; unit_of_measurement := unit_of_measurement;
     value := value; entity_category := entity_category;
     entity_enabled := default default_entity_enabled entity_enabled |}.

Definition datetime_or_none (d : option datetime) : event_value :=
  match d with
  | Some t => VDatetime t
  | None => VPy PNone
  end.

(** [r] is an event whose value is the boolean [True] exactly when [P]. *)
Definition yields_bool (r : res (option Event)) (P : Prop) : Prop :=
  exists e b, r = Ok (Some e) /\ value e = VBool b /\ (b = true <-> P).

(** [r] is an event whose value is [v]. *)
Definition yields_value (r : res (option Event)) (v : event_value) : Prop :=
  exists e, r = Ok (Some e) /\ value e = v.

(** [float(v)]: a string is read as a number, the other values of a
    notification are no numbers. *)
Definition py_float (v : pyval) : res spec_float :=
  match v with
  | PStr s =>
      match (if PyFloat.is_ascii s then PyFloat.of_string s
             else float_beyond_ascii s) with
      | Some f => Ok f
      | None => Raise ValueError
      end
  | _ => Raise TypeError
  end.

(** [str(v)], as an f-string field formats [v]. *)
Definition py_str (v : pyval) : string :=
  match v with
  | PNone => "None"
  | PStr s => s
  | _ => render v
  end.

(** Convert strings to datetimes, if invalid, return None. *)
Definition local_datetime_or_none (value : pyval) : res (option datetime) :=
  match parse_datetime value with
  | Raise ValueError => Ok None
  | Raise e => Raise e
  | Ok (Some ret) => t ← as_local ret; Ok (Some t)
  | Ok None => Ok None
  end.

(** ** The parsers

    Each parser is a coroutine that never suspends: awaiting it is
    calling it.  The result is [Ok (Some event)], [Ok None] for the
    [return None] of the handler, or the exception that leaves the
    parser. *)

(** Topic: tns1:VideoSource/MotionAlarm *)
Definition async_parse_motion_alarm (uid : string) (msg : pyval) : res (option Event) :=
  try_except
    (value_1 ← Ok msg >. "Message" >. "_value_1";
     source ← Ok value_1 >. "Source" >. "SimpleItem" >[0] >. "Value";
     data ← Ok value_1 >. "Data" >. "SimpleItem" >[0] >. "Value";
     Ok (Some (new_Event
            (uid +:+ "_" +:+ py_str value_1 +:+ "_" +:+ py_str source)
            "Motion Alarm" "binary_sensor" (Some "motion") None
            (VBool (py_eq_str data "true")) None None)))
    [AttributeError; KeyError] (Ok None).

(** Topics: tns1:VideoSource/ImageTooBlurry/AnalyticsService,
    tns1:VideoSource/ImageTooBlurry/ImagingService,
    tns1:VideoSource/ImageTooBlurry/RecordingService *)
Definition async_parse_image_too_blurry (uid : string) (msg : pyval) : res (option Event) :=
  try_except
    (value_1 ← Ok msg >. "Message" >. "_value_1";
     source ← Ok value_1 >. "Source" >. "SimpleItem" >[0] >. "Value";
     data ← Ok value_1 >. "Data" >. "SimpleItem" >[0] >. "Value";
     Ok (Some (new_Event
            (uid +:+ "_" +:+ py_str value_1 +:+ "_" +:+ py_str source)
            "Image Too Blurry" "binary_sensor" (Some "problem") None
            (VBool (py_eq_str data "true")) (Some DIAGNOSTIC) None)))
    [AttributeError; KeyError] (Ok None).

(** Topics: tns1:VideoSource/ImageTooDark/AnalyticsService,
    tns1:VideoSource/ImageTooDark/ImagingService,
    tns1:VideoSource/ImageTooDark/RecordingService *)
Definition async_parse_image_too_dark (uid : string) (msg : pyval) : res (option Event) :=
  try_except
    (value_1 ← Ok msg >. "Message" >. "_value_1";
     source ← Ok value_1 >. "Source" >. "SimpleItem" >[0] >. "Value";
     data ← Ok value_1 >. "Data" >. "SimpleItem" >[0] >. "Value";
     Ok (Some (new_Event
            (uid +:+ "_" +:+ py_str value_1 +:+ "_" +:+ py_str source)
            "Image Too Dark" "binary_sensor" (Some "problem") None
            (VBool (py_eq_str data "true")) (Some DIAGNOSTIC) None)))
    [AttributeError; KeyError] (Ok None).

(** Topics: tns1:VideoSource/ImageTooBright/AnalyticsService,
    tns1:VideoSource/ImageTooBright/ImagingService,
    tns1:VideoSource/ImageTooBright/RecordingService *)
Definition async_parse_image_too_bright (uid : string) (msg : pyval) : res (option Event) :=
  try_except
    (value_1 ← Ok msg >. "Message" >. "_value_1";
     source ← Ok value_1 >. "Source" >. "SimpleItem" >[0] >. "Value";
     data ← Ok value_1 >. "Data" >. "SimpleItem" >[0] >. "Value";
     Ok (Some (new_Event
            (uid +:+ "_" +:+ py_str value_1 +:+ "_" +:+ py_str source)
            "Image Too Bright" "binary_sensor" (Some "problem") None
            (VBool (py_eq_str data "true")) (Some DIAGNOSTIC) None)))
    [AttributeError; KeyError] (Ok None).

(** Topics: tns1:VideoSource/GlobalSceneChange/AnalyticsService,
    tns1:VideoSource/GlobalSceneChange/ImagingService,
    tns1:VideoSource/GlobalSceneChange/RecordingService *)
Definition async_parse_scene_change (uid : string) (msg : pyval) : res (option Event) :=
  try_except
    (value_1 ← Ok msg >. "Message" >. "_value_1";
     source ← Ok value_1 >. "Source" >. "SimpleItem" >[0] >. "Value";
     data ← Ok value_1 >. "Data" >. "SimpleItem" >[0] >. "Value";
     Ok (Some (new_Event
            (uid +:+ "_" +:+ py_str value_1 +:+ "_" +:+ py_str source)
            "Global Scene Change" "binary_sensor" (Some "problem") None
            (VBool (py_eq_str data "true")) None None)))
    [AttributeError; KeyError] (Ok None).

(** Topic: tns1:AudioAnalytics/Audio/DetectedSound *)
Definition async_parse_detected_sound (uid : string) (msg : pyval) : res (option Event) :=
  try_except
    (value_1 ← Ok msg >. "Message" >. "_value_1";
     items ← Ok value_1 >. "Source" >. "SimpleItem" ≫= py_iter;
     '(audio_source, audio_analytics, rule) ←
       for_each (PStr "", PStr "", PStr "") items
         (fun '(audio_source, audio_analytics, rule) source =>
            audio_source ←
              assign_if_named source "AudioSourceConfigurationToken"
                Ok audio_source;
            audio_analytics ←
              assign_if_named source "AudioAnalyticsConfigurationToken"
                Ok audio_analytics;
            rule ← assign_if_named source "Rule" Ok rule;
            Ok (audio_source, audio_analytics, rule));
     data ← Ok value_1 >. "Data" >. "SimpleItem" >[0] >. "Value";
     Ok (Some (new_Event
            (uid +:+ "_" +:+ py_str value_1 +:+ "_" +:+ py_str audio_source
              +:+ "_" +:+ py_str audio_analytics +:+ "_" +:+ py_str rule)
            "Detected Sound" "binary_sensor" (Some "sound") None
            (VBool (py_eq_str data "true")) None None)))
    [AttributeError; KeyError] (Ok None).

(** Topic: tns1:RuleEngine/FieldDetector/ObjectsInside *)
Definition async_parse_field_detector (uid : string) (msg : pyval) : res (option Event) :=
  try_except
    (value_1 ← Ok msg >. "Message" >. "_value_1";
     items ← Ok value_1 >. "Source" >. "SimpleItem" ≫= py_iter;
     '(video_source, video_analytics, rule) ←
       for_each (PStr "", PStr "", PStr "") items
         (fun '(video_source, video_analytics, rule) source =>
            video_source ←
              assign_if_named source "VideoSourceConfigurationToken"
                _normalize_video_source video_source;
            video_analytics ←
              assign_if_named source "VideoAnalyticsConfigurationToken"
                Ok video_analytics;
            rule ← assign_if_named source "Rule" Ok rule;
            Ok (video_source, video_analytics, rule));
     data ← Ok value_1 >. "Data" >. "SimpleItem" >[0] >. "Value";
     let evt :=
       new_Event
         (uid +:+ "_" +:+ py_str value_1 +:+ "_" +:+ py_str video_source
           +:+ "_" +:+ py_str video_analytics +:+ "_" +:+ py_str rule)
         "Field Detection" "binary_sensor" (Some "motion") None
         (VBool (py_eq_str data "true")) None None in
     Ok (Some evt))
    [AttributeError; KeyError] (Ok None).

(** Topic: tns1:RuleEngine/CellMotionDetector/Motion *)
Definition async_parse_cell_motion_detector (uid : string) (msg : pyval) : res (option Event) :=
  try_except
    (value_1 ← Ok msg >. "Message" >. "_value_1";
     items ← Ok value_1 >. "Source" >. "SimpleItem" ≫= py_iter;
     '(video_source, video_analytics, rule) ←
       for_each (PStr "", PStr "", PStr "") items
         (fun '(video_source, video_analytics, rule) source =>
            video_source ←
              assign_if_named source "VideoSourceConfigurationToken"
                _normalize_video_source video_source;
            video_analytics ←
              assign_if_named source "VideoAnalyticsConfigurationToken"
                Ok video_analytics;
            rule ← assign_if_named source "Rule" Ok rule;
            Ok (video_source, video_analytics, rule));
     data ← Ok value_1 >. "Data" >. "SimpleItem" >[0] >. "Value";
     Ok (Some (new_Event
            (uid +:+ "_" +:+ py_str value_1 +:+ "_" +:+ py_str video_source
              +:+ "_" +:+ py_str video_analytics +:+ "_" +:+ py_str rule)
            "Cell Motion Detection" "binary_sensor" (Some "motion") None
            (VBool (py_eq_str data "true")) None None)))
    [AttributeError; KeyError] (Ok None).

(** Topic: tns1:RuleEngine/MotionRegionDetector/Motion *)
Definition async_parse_motion_region_detector (uid : string) (msg : pyval) : res (option Event) :=
  try_except
    (value_1 ← Ok msg >. "Message" >. "_value_1";
     items ← Ok value_1 >. "Source" >. "SimpleItem" ≫= py_iter;
     '(video_source, video_analytics, rule) ←
       for_each (PStr "", PStr "", PStr "") items
         (fun '(video_source, video_analytics, rule) source =>
            video_source ←
              assign_if_named source "VideoSourceConfigurationToken"
                _normalize_video_source video_source;
            video_analytics ←
              assign_if_named source "VideoAnalyticsConfigurationToken"
                Ok video_analytics;
            rule ← assign_if_named source "Rule" Ok rule;
            Ok (video_source, video_analytics, rule));
     data ← Ok value_1 >. "Data" >. "SimpleItem" >[0] >. "Value";
     Ok (Some (new_Event
            (uid +:+ "_" +:+ py_str value_1 +:+ "_" +:+ py_str video_source
              +:+ "_" +:+ py_str video_analytics +:+ "_" +:+ py_str rule)
            "Motion Region Detection" "binary_sensor" (Some "motion") None
            (VBool (py_in_strs data ["1"; "true"])) None None)))
    [AttributeError; KeyError] (Ok None).

(** Topic: tns1:RuleEngine/TamperDetector/Tamper *)
Definition async_parse_tamper_detector (uid : string) (msg : pyval) : res (option Event) :=
  try_except
    (value_1 ← Ok msg >. "Message" >. "_value_1";
     items ← Ok value_1 >. "Source" >. "SimpleItem" ≫= py_iter;
     '(video_source, video_analytics, rule) ←
       for_each (PStr "", PStr "", PStr "") items
         (fun '(video_source, video_analytics, rule) source =>
            video_source ←
              assign_if_named source "VideoSourceConfigurationToken"
                _normalize_video_source video_source;
            video_analytics ←
              assign_if_named source "VideoAnalyticsConfigurationToken"
                Ok video_analytics;
            rule ← assign_if_named source "Rule" Ok rule;
            Ok (video_source, video_analytics, rule));
     data ← Ok value_1 >. "Data" >. "SimpleItem" >[0] >. "Value";
     Ok (Some (new_Event
            (uid +:+ "_" +:+ py_str value_1 +:+ "_" +:+ py_str video_source
              +:+ "_" +:+ py_str video_analytics +:+ "_" +:+ py_str rule)
            "Tamper Detection" "binary_sensor" (Some "problem") None
            (VBool (py_eq_str data "true")) (Some DIAGNOSTIC) None)))
    [AttributeError; KeyError] (Ok None).

(** Topic: tns1:RuleEngine/MyRuleDetector/DogCatDetect *)
Definition async_parse_dog_cat_detector (uid : string) (msg : pyval) : res (option Event) :=
  try_except
    (value_1 ← Ok msg >. "Message" >. "_value_1";
     items ← Ok value_1 >. "Source" >. "SimpleItem" ≫= py_iter;
     video_source ←
       for_each (PStr "") items
         (fun video_source source =>
            video_source ←
              assign_if_named source "Source"
                _normalize_video_source video_source;
            Ok video_source);
     data ← Ok value_1 >. "Data" >. "SimpleItem" >[0] >. "Value";
     Ok (Some (new_Event
            (uid +:+ "_" +:+ py_str value_1 +:+ "_" +:+ py_str video_source)
            "Pet Detection" "binary_sensor" (Some "motion") None
            (VBool (py_eq_str data "true")) None None)))
    [AttributeError; KeyError] (Ok None).

(** Topic: tns1:RuleEngine/MyRuleDetector/VehicleDetect *)
Definition async_parse_vehicle_detector (uid : string) (msg : pyval) : res (option Event) :=
  try_except
    (value_1 ← Ok msg >. "Message" >. "_value_1";
     items ← Ok value_1 >. "Source" >. "SimpleItem" ≫= py_iter;
     video_source ←
       for_each (PStr "") items
         (fun video_source source =>
            video_source ←
              assign_if_named source "Source"
                _normalize_video_source video_source;
            Ok video_source);
     data ← Ok value_1 >. "Data" >. "SimpleItem" >[0] >. "Value";
     Ok (Some (new_Event
            (uid +:+ "_" +:+ py_str value_1 +:+ "_" +:+ py_str video_source)
            "Vehicle Detection" "binary_sensor" (Some "motion") None
            (VBool (py_eq_str data "true")) None None)))
    [AttributeError; KeyError] (Ok None).

(** Topic: tns1:RuleEngine/MyRuleDetector/PeopleDetect *)
Definition async_parse_person_detector (uid : string) (msg : pyval) : res (option Event) :=
  try_except
    (value_1 ← Ok msg >. "Message" >. "_value_1";
     items ← Ok value_1 >. "Source" >. "SimpleItem" ≫= py_iter;
     video_source ←
       for_each (PStr "") items
         (fun video_source source =>
            video_source ←
              assign_if_named source "Source"
                _normalize_video_source video_source;
            Ok video_source);
     data ← Ok value_1 >. "Data" >. "SimpleItem" >[0] >. "Value";
     Ok (Some (new_Event
            (uid +:+ "_" +:+ py_str value_1 +:+ "_" +:+ py_str video_source)
            "Person Detection" "binary_sensor" (Some "motion") None
            (VBool (py_eq_str data "true")) None None)))
    [AttributeError; KeyError] (Ok None).

(** Topic: tns1:RuleEngine/MyRuleDetector/FaceDetect *)
Definition async_parse_face_detector (uid : string) (msg : pyval) : res (option Event) :=
  try_except
    (value_1 ← Ok msg >. "Message" >. "_value_1";
     items ← Ok value_1 >. "Source" >. "SimpleItem" ≫= py_iter;
     video_source ←
       for_each (PStr "") items
         (fun video_source source =>
            video_source ←
              assign_if_named source "Source"
                _normalize_video_source video_source;
            Ok video_source);
     data ← Ok value_1 >. "Data" >. "SimpleItem" >[0] >. "Value";
     Ok (Some (new_Event
            (uid +:+ "_" +:+ py_str value_1 +:+ "_" +:+ py_str video_source)
            "Face Detection" "binary_sensor" (Some "motion") None
            (VBool (py_eq_str data "true")) None None)))
    [AttributeError; KeyError] (Ok None).

(** Topic: tns1:RuleEngine/MyRuleDetector/Visitor *)
Definition async_parse_visitor_detector (uid : string) (msg : pyval) : res (option Event) :=
  try_except
    (value_1 ← Ok msg >. "Message" >. "_value_1";
     items ← Ok value_1 >. "Source" >. "SimpleItem" ≫= py_iter;
     video_source ←
       for_each (PStr "") items
         (fun video_source source =>
            video_source ←
              assign_if_named source "Source"
                _normalize_video_source video_source;
            Ok video_source);
     data ← Ok value_1 >. "Data" >. "SimpleItem" >[0] >. "Value";
     Ok (Some (new_Event
            (uid +:+ "_" +:+ py_str value_1 +:+ "_" +:+ py_str video_source)
            "Visitor Detection" "binary_sensor" (Some "occupancy") None
            (VBool (py_eq_str data "true")) None None)))
    [AttributeError; KeyError] (Ok None).

(** Topic: tns1:Device/Trigger/DigitalInput *)
Definition async_parse_digital_input (uid : string) (msg : pyval) : res (option Event) :=
  try_except
    (value_1 ← Ok msg >. "Message" >. "_value_1";
     source ← Ok value_1 >. "Source" >. "SimpleItem" >[0] >. "Value";
     data ← Ok value_1 >. "Data" >. "SimpleItem" >[0] >. "Value";
     Ok (Some (new_Event
            (uid +:+ "_" +:+ py_str value_1 +:+ "_" +:+ py_str source)
            "Digital Input" "binary_sensor" None None
            (VBool (py_eq_str data "true")) None None)))
    [AttributeError; KeyError] (Ok None).

(** Topic: tns1:Device/Trigger/Relay *)
Definition async_parse_relay (uid : string) (msg : pyval) : res (option Event) :=
  try_except
    (value_1 ← Ok msg >. "Message" >. "_value_1";
     source ← Ok value_1 >. "Source" >. "SimpleItem" >[0] >. "Value";
     data ← Ok value_1 >. "Data" >. "SimpleItem" >[0] >. "Value";
     Ok (Some (new_Event
            (uid +:+ "_" +:+ py_str value_1 +:+ "_" +:+ py_str source)
            "Relay Triggered" "binary_sensor" None None
            (VBool (py_eq_str data "active")) None None)))
    [AttributeError; KeyError] (Ok None).

(** Topic: tns1:Device/HardwareFailure/StorageFailure *)
Definition async_parse_storage_failure (uid : string) (msg : pyval) : res (option Event) :=
  try_except
    (value_1 ← Ok msg >. "Message" >. "_value_1";
     source ← Ok value_1 >. "Source" >. "SimpleItem" >[0] >. "Value";
     data ← Ok value_1 >. "Data" >. "SimpleItem" >[0] >. "Value";
     Ok (Some (new_Event
            (uid +:+ "_" +:+ py_str value_1 +:+ "_" +:+ py_str source)
            "Storage Failure" "binary_sensor" (Some "problem") None
            (VBool (py_eq_str data "true")) (Some DIAGNOSTIC) None)))
    [AttributeError; KeyError] (Ok None).

(** Topic: tns1:Monitoring/ProcessorUsage *)
Definition async_parse_processor_usage (uid : string) (msg : pyval) : res (option Event) :=
  try_except
    (value_1 ← Ok msg >. "Message" >. "_value_1";
     usage ← Ok value_1 >. "Data" >. "SimpleItem" >[0] >. "Value" ≫= py_float;
     let usage :=
       if PyFloat.leb usage (PyFloat.of_Z 1)
       then PyFloat.mul usage (PyFloat.of_Z 100)
       else usage in
     n ← PyFloat.to_int usage;
     Ok (Some (new_Event
            (uid +:+ "_" +:+ py_str value_1)
            "Processor Usage" "sensor" None (Some "percent")
            (VInt n) (Some DIAGNOSTIC) None)))
    [AttributeError; KeyError] (Ok None).

(** Topic: tns1:Monitoring/OperatingTime/LastReboot *)
Definition async_parse_last_reboot (uid : string) (msg : pyval) : res (option Event) :=
  try_except
    (value_1 ← Ok msg >. "Message" >. "_value_1";
     date_time ←
       Ok value_1 >. "Data" >. "SimpleItem" >[0] >. "Value" ≫= local_datetime_or_none;
     Ok (Some (new_Event
            (uid +:+ "_" +:+ py_str value_1)
            "Last Reboot" "sensor" (Some "timestamp") None
            (datetime_or_none date_time) (Some DIAGNOSTIC) None)))
    [AttributeError; KeyError] (Ok None).

(** Topic: tns1:Monitoring/OperatingTime/LastReset *)
Definition async_parse_last_reset (uid : string) (msg : pyval) : res (option Event) :=
  try_except
    (value_1 ← Ok msg >. "Message" >. "_value_1";
     date_time ←
       Ok value_1 >. "Data" >. "SimpleItem" >[0] >. "Value" ≫= local_datetime_or_none;
     Ok (Some (new_Event
            (uid +:+ "_" +:+ py_str value_1)
            "Last Reset" "sensor" (Some "timestamp") None
            (datetime_or_none date_time) (Some DIAGNOSTIC) (Some false))))
    [AttributeError; KeyError] (Ok None).

(** Topic: tns1:Monitoring/Backup/Last *)
Definition async_parse_backup_last (uid : string) (msg : pyval) : res (option Event) :=
  try_except
    (value_1 ← Ok msg >. "Message" >. "_value_1";
     date_time ←
       Ok value_1 >. "Data" >. "SimpleItem" >[0] >. "Value" ≫= local_datetime_or_none;
     Ok (Some (new_Event
            (uid +:+ "_" +:+ py_str value_1)
            "Last Backup" "sensor" (Some "timestamp") None
            (datetime_or_none date_time) (Some DIAGNOSTIC) (Some false))))
    [AttributeError; KeyError] (Ok None).

(** Topic: tns1:Monitoring/OperatingTime/LastClockSynchronization *)
Definition async_parse_last_clock_sync (uid : string) (msg : pyval) : res (option Event) :=
  try_except
    (value_1 ← Ok msg >. "Message" >. "_value_1";
     date_time ←
       Ok value_1 >. "Data" >. "SimpleItem" >[0] >. "Value" ≫= local_datetime_or_none;
     Ok (Some (new_Event
            (uid +:+ "_" +:+ py_str value_1)
            "Last Clock Synchronization" "sensor" (Some "timestamp") None
            (datetime_or_none date_time) (Some DIAGNOSTIC) (Some false))))
    [AttributeError; KeyError] (Ok None).

(** Topic: tns1:RecordingConfig/JobState *)
Definition async_parse_jobstate (uid : string) (msg : pyval) : res (option Event) :=
  try_except
    (value_1 ← Ok msg >. "Message" >. "_value_1";
     source ← Ok value_1 >. "Source" >. "SimpleItem" >[0] >. "Value";
     data ← Ok value_1 >. "Data" >. "SimpleItem" >[0] >. "Value";
     Ok (Some (new_Event
            (uid +:+ "_" +:+ py_str value_1 +:+ "_" +:+ py_str source)
            "Recording Job State" "binary_sensor" None None
            (VBool (py_eq_str data "Active")) (Some DIAGNOSTIC) None)))
    [AttributeError; KeyError] (Ok None).

(** Topic: tns1:RuleEngine/LineDetector/Crossed *)
Definition async_parse_linedetector_crossed (uid : string) (msg : pyval) : res (option Event) :=
  try_except
    (value_1 ← Ok msg >. "Message" >. "_value_1";
     items ← Ok value_1 >. "Source" >. "SimpleItem" ≫= py_iter;
     '(video_source, video_analytics, rule) ←
       for_each (PStr "", PStr "", PStr "") items
         (fun '(video_source, video_analytics, rule) source =>
            video_source ←
              assign_if_named source "VideoSourceConfigurationToken"
                Ok video_source;
            video_analytics ←
              assign_if_named source "VideoAnalyticsConfigurationToken"
                Ok video_analytics;
            rule ← assign_if_named source "Rule" Ok rule;
            Ok (video_source, video_analytics, rule));
     data ← Ok value_1 >. "Data" >. "SimpleItem" >[0] >. "Value";
     Ok (Some (new_Event
            (uid +:+ "_" +:+ py_str value_1 +:+ "_" +:+ py_str video_source
              +:+ "_" +:+ py_str video_analytics +:+ "_" +:+ py_str rule)
            "Line Detector Crossed" "sensor" None None
            (VPy data) (Some DIAGNOSTIC) None)))
    [AttributeError; KeyError] (Ok None).

(** Topic: tns1:RuleEngine/CountAggregation/Counter *)
Definition async_parse_count_aggregation_counter (uid : string) (msg : pyval) : res (option Event) :=
  try_except
    (value_1 ← Ok msg >. "Message" >. "_value_1";
     items ← Ok value_1 >. "Source" >. "SimpleItem" ≫= py_iter;
     '(video_source, video_analytics, rule) ←
       for_each (PStr "", PStr "", PStr "") items
         (fun '(video_source, video_analytics, rule) source =>
            video_source ←
              assign_if_named source "VideoSourceConfigurationToken"
                _normalize_video_source video_source;
            video_analytics ←
              assign_if_named source "VideoAnalyticsConfigurationToken"
                Ok video_analytics;
            rule ← assign_if_named source "Rule" Ok rule;
            Ok (video_source, video_analytics, rule));
     data ← Ok value_1 >. "Data" >. "SimpleItem" >[0] >. "Value";
     Ok (Some (new_Event
            (uid +:+ "_" +:+ py_str value_1 +:+ "_" +:+ py_str video_source
              +:+ "_" +:+ py_str video_analytics +:+ "_" +:+ py_str rule)
            "Count Aggregation Counter" "sensor" None None
            (VPy data) (Some DIAGNOSTIC) None)))
    [AttributeError; KeyError] (Ok None).

(** ** The registry *)

Definition parser : Type := string -> pyval -> res (option Event).

(** Modelled from the spec: the [Registry] class (util/decorator.py) is not
    part of the sources at hand; "register(topic) associates a parser
    function with a topic key", "lookup(topic) retrieves the parser for
    exact-match topic strings; no wildcard/prefix matching".  A registry
    is a map from topics to parsers, and looking a topic up is the lookup
    of the map. *)
Definition register (name : string) (func : parser)
    (self : gmap string parser) : gmap string parser :=
  <[name := func]> self.

(** The [@PARSERS.register(topic)] decorators in the order they run:
    function by function, and from the innermost decorator outwards. *)
Definition registrations : list (string * parser) :=
  [ ("tns1:VideoSource/MotionAlarm", async_parse_motion_alarm);
    ("tns1:VideoSource/ImageTooBlurry/RecordingService",
     async_parse_image_too_blurry);
    ("tns1:VideoSource/ImageTooBlurry/ImagingService", async_parse_image_too_blurry);
    ("tns1:VideoSource/ImageTooBlurry/AnalyticsService",
     async_parse_image_too_blurry);
    ("tns1:VideoSource/ImageTooDark/RecordingService", async_parse_image_too_dark);
    ("tns1:VideoSource/ImageTooDark/ImagingService", async_parse_image_too_dark);
    ("tns1:VideoSource/ImageTooDark/AnalyticsService", async_parse_image_too_dark);
    ("tns1:VideoSource/ImageTooBright/RecordingService",
     async_parse_image_too_bright);
    ("tns1:VideoSource/ImageTooBright/ImagingService", async_parse_image_too_bright);
    ("tns1:VideoSource/ImageTooBright/AnalyticsService",
     async_parse_image_too_bright);
    ("tns1:VideoSource/GlobalSceneChange/RecordingService", async_parse_scene_change);
    ("tns1:VideoSource/GlobalSceneChange/ImagingService", async_parse_scene_change);
    ("tns1:VideoSource/GlobalSceneChange/AnalyticsService", async_parse_scene_change);
    ("tns1:AudioAnalytics/Audio/DetectedSound", async_parse_detected_sound);
    ("tns1:RuleEngine/FieldDetector/ObjectsInside", async_parse_field_detector);
    ("tns1:RuleEngine/CellMotionDetector/Motion", async_parse_cell_motion_detector);
    ("tns1:RuleEngine/MotionRegionDetector/Motion",
     async_parse_motion_region_detector);
    ("tns1:RuleEngine/TamperDetector/Tamper", async_parse_tamper_detector);
    ("tns1:RuleEngine/MyRuleDetector/DogCatDetect", async_parse_dog_cat_detector);
    ("tns1:RuleEngine/MyRuleDetector/VehicleDetect", async_parse_vehicle_detector);
    ("tns1:RuleEngine/MyRuleDetector/PeopleDetect", async_parse_person_detector);
    ("tns1:RuleEngine/MyRuleDetector/FaceDetect", async_parse_face_detector);
    ("tns1:RuleEngine/MyRuleDetector/Visitor", async_parse_visitor_detector);
    ("tns1:Device/Trigger/DigitalInput", async_parse_digital_input);
    ("tns1:Device/Trigger/Relay", async_parse_relay);
    ("tns1:Device/HardwareFailure/StorageFailure", async_parse_storage_failure);
    ("tns1:Monitoring/ProcessorUsage", async_parse_processor_usage);
    ("tns1:Monitoring/OperatingTime/LastReboot", async_parse_last_reboot);
    ("tns1:Monitoring/OperatingTime/LastReset", async_parse_last_reset);
    ("tns1:Monitoring/Backup/Last", async_parse_backup_last);
    ("tns1:Monitoring/OperatingTime/LastClockSynchronization",
     async_parse_last_clock_sync);
    ("tns1:RecordingConfig/JobState", async_parse_jobstate);
    ("tns1:RuleEngine/LineDetector/Crossed", async_parse_linedetector_crossed);
    ("tns1:RuleEngine/CountAggregation/Counter",
     async_parse_count_aggregation_counter) ].

Definition PARSERS : gmap string parser :=
  foldl (fun self '(name, func) => register name func self) ∅ registrations.

(** The parsers that put the [Rule] source item into the uid. *)
Definition rule_parsers : list parser :=
  [ async_parse_detected_sound; async_parse_field_detector;
    async_parse_cell_motion_detector; async_parse_motion_region_detector;
    async_parse_tamper_detector; async_parse_linedetector_crossed;
    async_parse_count_aggregation_counter ].

(** Those of them that normalize the video source token. *)
Definition normalizing_rule_parsers : list parser :=
  [ async_parse_field_detector; async_parse_cell_motion_detector;
    async_parse_motion_region_detector; async_parse_tamper_detector;
    async_parse_count_aggregation_counter ].

(** The parsers that look for the one source item named [Source]. *)
Definition detector_parsers : list parser :=
  [ async_parse_dog_cat_detector; async_parse_vehicle_detector;
    async_parse_person_detector; async_parse_face_detector;
    async_parse_visitor_detector ].

(** The parsers of the monitoring topics, which read the data only, and
    the time stamp parsers among them. *)
Definition datetime_parsers : list parser :=
  [ async_parse_last_reboot; async_parse_last_reset;
    async_parse_backup_last; async_parse_last_clock_sync ].

Definition monitoring_parsers : list parser :=
  async_parse_processor_usage :: datetime_parsers.

(** The parsers that read the first source item by position. *)
Definition anchor_parsers : list parser :=
  [ async_parse_motion_alarm; async_parse_image_too_blurry;
    async_parse_image_too_dark; async_parse_image_too_bright;
    async_parse_scene_change; async_parse_digital_input;
    async_parse_relay; async_parse_storage_failure; async_parse_jobstate ].

(** ** Basic facts *)

Lemma bind_Ok_inv {A B} (m : res A) (f : A -> res B) (b : B) :
  m ≫= f = Ok b -> exists a, m = Ok a /\ f a = Ok b.
Proof. destruct m as [a|e]; simpl; [eauto | discriminate]. Qed.

Lemma bind_Raise_inv {A B} (m : res A) (f : A -> res B) (e : exn) :
  m ≫= f = Raise e -> m = Raise e \/ exists a, m = Ok a /\ f a = Raise e.
Proof. destruct m as [a|e']; simpl; [eauto | intros [= ->]; auto]. Qed.

Lemma py_eq_str_true (v : pyval) (s : string) :
  py_eq_str v s = true <-> v = PStr s.
Proof.
  destruct v; simpl; try (split; discriminate).
  rewrite String.eqb_eq. split; [congruence | intros [= ->]; done].
Qed.

Lemma py_in_strs_true (v : pyval) (l : list string) :
  py_in_strs v l = true <-> exists s, In s l /\ v = PStr s.
Proof.
  unfold py_in_strs. rewrite existsb_exists.
  split; intros (s & Hin & H); exists s; (split; [exact Hin|]);
    by apply py_eq_str_true.
Qed.

(** A computation under [except (AttributeError, KeyError): return None]
    lets neither of the two out. *)
Lemma try_except_caught {A} (body : res (option A)) (e : exn) :
  try_except body [AttributeError; KeyError] (Ok None) = Raise e ->
  body = Raise e /\ e <> AttributeError /\ e <> KeyError.
Proof.
  destruct body as [a|e']; simpl; [discriminate|].
  case_bool_decide as Hin; [discriminate|].
  intros [= ->]. split; [done|].
  split; intros ->; apply Hin; set_solver.
Qed.

(** ** Video source normalization is idempotent *)

Lemma VIDEO_SOURCE_MAPPING_lookup (s t : string) :
  VIDEO_SOURCE_MAPPING !! s = Some t <-> s = "vsconf" /\ t = "VideoSourceToken".
Proof.
  unfold VIDEO_SOURCE_MAPPING. rewrite lookup_singleton_Some.
  split; intros [<- <-]; done.
Qed.

Lemma _normalize_video_source_str (s : string) :
  _normalize_video_source (PStr s) =
  Ok (PStr (if String.eqb s "vsconf" then "VideoSourceToken" else s)).
Proof.
  unfold _normalize_video_source; simpl. do 2 f_equal.
  destruct (VIDEO_SOURCE_MAPPING !! s) as [t|] eqn:E; simpl.
  - apply VIDEO_SOURCE_MAPPING_lookup in E as [-> ->]. reflexivity.
  - destruct (String.eqb_spec s "vsconf") as [->|]; [|done].
    discriminate E.
Qed.

(** C10: normalizing twice is normalizing once, on every string (and on
    every other value, where both sides are the value itself or the same
    [TypeError]); the one output that is no input, "VideoSourceToken",
    is no key of the mapping. *)
Theorem normalize_video_source_idempotent :
  (forall source : pyval,
      _normalize_video_source source ≫= _normalize_video_source
      = _normalize_video_source source) /\
  (forall s : string, exists s' : string,
      _normalize_video_source (PStr s) = Ok (PStr s') /\
      _normalize_video_source (PStr s') = Ok (PStr s') /\
      (s' <> s -> s' = "VideoSourceToken")) /\
  VIDEO_SOURCE_MAPPING !! "VideoSourceToken" = None.
Proof.
  assert (Hstr : forall s, exists s',
             _normalize_video_source (PStr s) = Ok (PStr s') /\
             _normalize_video_source (PStr s') = Ok (PStr s') /\
             (s' <> s -> s' = "VideoSourceToken")).
  { intros s. rewrite _normalize_video_source_str.
    destruct (String.eqb_spec s "vsconf") as [->|Hne].
    - exists "VideoSourceToken". repeat apply conj; reflexivity.
    - exists s. rewrite _normalize_video_source_str.
      destruct (String.eqb_spec s "vsconf"); done. }
  split; [|split; [exact Hstr | reflexivity]].
  intros [ |s|l|fields]; try reflexivity.
  destruct (Hstr s) as (s' & H1 & H2 & _). rewrite H1. exact H2.
Qed.

(** ** Running the parsers on well-formed parts *)

Lemma assign_if_named_simple_item (nv : string * string) (name : string)
    (g : pyval -> res pyval) (x : pyval) :
  assign_if_named (simple_item nv) name g x
  = if String.eqb nv.1 name then g (PStr nv.2) else Ok x.
Proof. reflexivity. Qed.

Section Loops.
Variables (n1 n2 n3 : string) (g1 g2 g3 : pyval -> res pyval).
Variables (h1 h2 h3 : string -> string).
Hypothesis Hg1 : forall s, g1 (PStr s) = Ok (PStr (h1 s)).
Hypothesis Hg2 : forall s, g2 (PStr s) = Ok (PStr (h2 s)).
Hypothesis Hg3 : forall s, g3 (PStr s) = Ok (PStr (h3 s)).

Lemma for_each_three (items : list (string * string)) (a b c : pyval) :
  for_each (a, b, c) (map simple_item items) (fun '(a, b, c) source =>
    a ← assign_if_named source n1 g1 a;
    b ← assign_if_named source n2 g2 b;
    c ← assign_if_named source n3 g3 c;
    Ok (a, b, c))
  = Ok (picked n1 h1 items a, picked n2 h2 items b, picked n3 h3 items c).
Proof using Hg1 Hg2 Hg3.
  revert a b c. induction items as [|nv items IH]; intros a b c; [reflexivity|].
  cbn [map for_each]. rewrite !assign_if_named_simple_item.
  cbn [picked fold_left].
  destruct (String.eqb nv.1 n1); [rewrite Hg1|]; cbn [bind];
    (destruct (String.eqb nv.1 n2); [rewrite Hg2|]; cbn [bind]);
    (destruct (String.eqb nv.1 n3); [rewrite Hg3|]; cbn [bind]);
    apply IH.
Qed.
End Loops.

Lemma Ok_str (s : string) : Ok (PStr s) = Ok (PStr (id s)).
Proof. reflexivity. Qed.

(** Evaluate a parser whose parts are given by hypotheses on
    [value_1_of], [source_anchor], [data_anchor] and [source_items]. *)
Ltac run :=
  repeat match goal with
    | H : _ = _ |- _ =>
        progress (unfold value_1_of, source_anchor, data_anchor, source_items in H;
                  cbn [bind] in H)
    end;
  unfold value_1_of, source_anchor, data_anchor, source_items;
  cbn [bind];
  repeat match goal with
    | H : ?m = Ok _ |- context [?m] => rewrite H; cbn [bind]
    end.

Ltac run_loop3 :=
  erewrite for_each_three by first [exact _normalize_video_source_str | exact Ok_str];
  cbn [bind].

Ltac bool_result :=
  cbn [try_except]; eexists _, _; split; [reflexivity|]; split; [reflexivity|].

(** C4: which raw string makes the value [True] depends on the topic:
    "true" for the motion alarm, the blurred image and the tamper
    detector, "active" for the relay (where "true" gives [False]), and
    "1" or "true" for the motion region detector. *)
Theorem boolean_coercion_per_topic (uid : string) (msg value_1 d : pyval) :
  value_1_of msg = Ok value_1 ->
  data_anchor value_1 = Ok d ->
  (forall source, source_anchor value_1 = Ok source ->
     yields_bool (async_parse_motion_alarm uid msg) (d = PStr "true") /\
     yields_bool (async_parse_image_too_blurry uid msg) (d = PStr "true") /\
     yields_bool (async_parse_relay uid msg) (d = PStr "active") /\
     (d = PStr "true" ->
      yields_bool (async_parse_relay uid msg) False)) /\
  (forall items, source_items value_1 = Ok (map simple_item items) ->
     yields_bool (async_parse_tamper_detector uid msg) (d = PStr "true") /\
     yields_bool (async_parse_motion_region_detector uid msg)
       (d = PStr "1" \/ d = PStr "true")).
Proof.
  intros Hv Hd. split.
  - intros source Hs.
    repeat apply conj;
      try (unfold async_parse_motion_alarm, async_parse_image_too_blurry,
             async_parse_relay; run; bool_result; apply py_eq_str_true).
    intros ->. unfold async_parse_relay; run; bool_result.
    split; [discriminate | intros []].
  - intros items Hi. split.
    + unfold async_parse_tamper_detector. run. run_loop3.
      bool_result. apply py_eq_str_true.
    + unfold async_parse_motion_region_detector. run. run_loop3.
      bool_result. rewrite py_in_strs_true. split.
      * intros (s & [<- | [<- | []]] & ->); auto.
      * intros [-> | ->]; eexists; (split; [|reflexivity]); simpl; auto.
Qed.

(** C9: the recording job state is [True] exactly on "Active" with a
    capital A; "active", "true" and "1" give [False]. *)
Theorem jobstate_active_capital (uid : string) (msg value_1 source d : pyval) :
  value_1_of msg = Ok value_1 ->
  source_anchor value_1 = Ok source ->
  data_anchor value_1 = Ok d ->
  yields_bool (async_parse_jobstate uid msg) (d = PStr "Active") /\
  (d = PStr "active" \/ d = PStr "true" \/ d = PStr "1" ->
   yields_bool (async_parse_jobstate uid msg) False).
Proof.
  intros Hv Hs Hd. split.
  - unfold async_parse_jobstate. run. bool_result. apply py_eq_str_true.
  - intros Hcase. unfold async_parse_jobstate. run. bool_result.
    split; [|intros []].
    destruct Hcase as [-> | [-> | ->]]; discriminate.
Qed.

Ltac value_result :=
  cbn [try_except]; eexists; split; reflexivity.

(** ** The reader of floats accepts ASCII texts only *)

Lemma is_ascii_Forall (s : string) :
  PyFloat.is_ascii s = true <-> Forall ascii_char (list_ascii_of_string s).
Proof.
  unfold PyFloat.is_ascii. rewrite forallb_forall, Forall_forall.
  split; intros H c Hc.
  - apply Nat.ltb_lt, H. by apply list_elem_of_In.
  - apply Nat.ltb_lt, H. by apply list_elem_of_In.
Qed.

Lemma is_space_ascii (c : ascii) : PyFloat.is_space c = true -> ascii_char c.
Proof.
  unfold PyFloat.is_space, ascii_char. intros H.
  apply orb_prop in H as [H | H].
  - apply andb_prop in H as [_ H]. apply Nat.leb_le in H. lia.
  - apply Nat.eqb_eq in H. lia.
Qed.

Lemma digit_of_ascii (c : ascii) (d : Z) : PyFloat.digit_of c = Some d -> ascii_char c.
Proof.
  unfold PyFloat.digit_of, ascii_char.
  destruct (_ && _)%bool eqn:H; [|discriminate]. intros _.
  apply andb_prop in H as [_ H]. apply Nat.leb_le in H. lia.
Qed.

Lemma lower_ascii (c : ascii) : ascii_char (PyFloat.lower c) -> ascii_char c.
Proof.
  unfold PyFloat.lower, ascii_char.
  destruct (_ && _)%bool eqn:H; [|done]. intros _.
  apply andb_prop in H as [_ H]. apply Nat.leb_le in H. lia.
Qed.

Lemma lstrip_ascii (l : list ascii) :
  Forall ascii_char (PyFloat.lstrip l) -> Forall ascii_char l.
Proof.
  induction l as [|c l IH]; cbn; [done|].
  destruct (PyFloat.is_space c) eqn:Hc; [|done].
  intros H. constructor; [by apply is_space_ascii | by apply IH].
Qed.

Lemma strip_ascii (l : list ascii) :
  Forall ascii_char (PyFloat.strip l) -> Forall ascii_char l.
Proof.
  unfold PyFloat.strip. intros H.
  apply lstrip_ascii. apply Forall_rev in H. rewrite rev_involutive in H.
  apply lstrip_ascii in H. apply Forall_rev in H. by rewrite rev_involutive in H.
Qed.

Lemma sign_ascii (l : list ascii) :
  Forall ascii_char (PyFloat.sign l).2 -> Forall ascii_char l.
Proof.
  destruct l as [|c l]; [done|].
  destruct c as [[] [] [] [] [] [] [] []]; cbn; intros H;
    first [exact H | constructor; [apply Nat.ltb_lt; reflexivity | exact H]].
Qed.

Lemma digits_tail_ascii_upto (n : nat) :
  forall l acc k m k' rest,
    (length l <= n)%nat ->
    PyFloat.digits_tail acc k l = (m, k', rest) ->
    Forall ascii_char rest -> Forall ascii_char l.
Proof.
  induction n as [|n IH]; intros l acc k m k' rest Hn.
  { destruct l; [by intros [= _ _ <-] | cbn in Hn; lia]. }
  destruct l as [|c l]; cbn; [by intros [= _ _ <-]|].
  destruct (PyFloat.digit_of c) as [d|] eqn:Hc.
  - intros H Hr. constructor; [by eapply digit_of_ascii|].
    eapply IH; [cbn in Hn; lia | exact H | exact Hr].
  - destruct (Ascii.eqb_spec c "_") as [->|]; [|by intros [= _ _ <-]].
    destruct l as [|c' l]; [by intros [= _ _ <-]|].
    destruct (PyFloat.digit_of c') as [d|] eqn:Hc'; [|by intros [= _ _ <-]].
    intros H Hr. constructor; [apply Nat.ltb_lt; reflexivity|].
    constructor; [by eapply digit_of_ascii|].
    eapply IH; [cbn in Hn; lia | exact H | exact Hr].
Qed.

Lemma digits_tail_ascii (l : list ascii) (acc k m k' : Z) (rest : list ascii) :
  PyFloat.digits_tail acc k l = (m, k', rest) ->
  Forall ascii_char rest -> Forall ascii_char l.
Proof. by apply (digits_tail_ascii_upto (length l)). Qed.

Lemma digitpart_ascii (l : list ascii) (acc m k : Z) (rest : list ascii) :
  PyFloat.digitpart acc l = Some (m, k, rest) ->
  Forall ascii_char rest -> Forall ascii_char l.
Proof.
  destruct l as [|c l]; cbn; [discriminate|].
  destruct (PyFloat.digit_of c) as [d|] eqn:Hc; [|discriminate].
  intros [= H] Hr. constructor; [by eapply digit_of_ascii|].
  by eapply digits_tail_ascii.
Qed.

Lemma exponent_ascii (m k : Z) (l : list ascii) (r : Z * Z) :
  PyFloat.exponent m k l = Some r -> Forall ascii_char l.
Proof.
  destruct l as [|c l]; cbn; [done|].
  destruct (Ascii.eqb_spec (PyFloat.lower c) "e") as [Hc|]; [|discriminate].
  destruct (PyFloat.sign l) as [neg rest] eqn:Hs.
  destruct (PyFloat.digitpart 0 rest) as [[[e k'] [|]]|] eqn:Hd; try discriminate.
  intros _. constructor.
  - apply lower_ascii. rewrite Hc. apply Nat.ltb_lt. reflexivity.
  - apply sign_ascii. rewrite Hs. cbn. by eapply digitpart_ascii.
Qed.

Lemma floatnumber_ascii (l : list ascii) (r : Z * Z) :
  PyFloat.floatnumber l = Some r -> Forall ascii_char l.
Proof.
  assert (Hdot : ascii_char ".") by (apply Nat.ltb_lt; reflexivity).
  unfold PyFloat.floatnumber.
  destruct (PyFloat.digitpart 0 l) as [[[m k] rest]|] eqn:Hd.
  - intros H. eapply digitpart_ascii; [exact Hd|].
    destruct rest as [|c rest]; [done|].
    destruct (Ascii.eqb_spec c ".") as [->|Hne].
    + constructor; [exact Hdot|].
      destruct (PyFloat.digitpart m rest) as [[[m' k'] rest']|] eqn:Hd'.
      * eapply digitpart_ascii; [exact Hd'|]. by eapply exponent_ascii.
      * by eapply exponent_ascii.
    + assert (H' : PyFloat.exponent m 0 (c :: rest) = Some r).
      { revert H. destruct c as [[] [] [] [] [] [] [] []]; done. }
      by eapply exponent_ascii.
  - destruct l as [|c l]; [discriminate|].
    destruct (Ascii.eqb_spec c ".") as [->|Hne].
    + destruct (PyFloat.digitpart 0 l) as [[[m' k'] rest']|] eqn:Hd'; [|discriminate].
      intros H. constructor; [exact Hdot|].
      eapply digitpart_ascii; [exact Hd'|]. by eapply exponent_ascii.
    + destruct c as [[] [] [] [] [] [] [] []];
        first [discriminate | by destruct Hne].
Qed.

Lemma word_ascii (l : list ascii) (w : string) :
  string_of_list_ascii (map PyFloat.lower l) = w ->
  PyFloat.is_ascii w = true -> Forall ascii_char l.
Proof.
  intros <- H. apply is_ascii_Forall in H.
  rewrite list_ascii_of_string_of_list_ascii in H.
  induction l as [|c l IH]; [done|].
  cbn in H. apply Forall_cons in H as [Hc H].
  constructor; [by apply lower_ascii | by apply IH].
Qed.

(** A text that reads as a float has ASCII characters only. *)
Lemma of_string_ascii (s : string) (f : spec_float) :
  PyFloat.of_string s = Some f -> PyFloat.is_ascii s = true.
Proof.
  unfold PyFloat.of_string. intros H. apply is_ascii_Forall, strip_ascii, sign_ascii.
  destruct (PyFloat.sign _) as [neg l]. cbn [snd].
  destruct (String.eqb_spec (string_of_list_ascii (map PyFloat.lower l)) "inf")
    as [Hw|_]; [by eapply word_ascii|].
  destruct (String.eqb_spec (string_of_list_ascii (map PyFloat.lower l)) "infinity")
    as [Hw|_]; [by eapply word_ascii|].
  destruct (String.eqb_spec (string_of_list_ascii (map PyFloat.lower l)) "nan")
    as [Hw|_]; [by eapply word_ascii|].
  cbn [orb] in H.
  destruct (PyFloat.floatnumber l) as [[m e]|] eqn:Hf; [|discriminate].
  by eapply floatnumber_ascii.
Qed.

(** The processor usage parser on a data value that reads as the float [f]. *)
Lemma processor_usage_run (uid : string) (msg value_1 : pyval) (s : string)
    (f : spec_float) (n : Z) :
  value_1_of msg = Ok value_1 ->
  data_anchor value_1 = Ok (PStr s) ->
  PyFloat.of_string s = Some f ->
  PyFloat.to_int (if PyFloat.leb f (PyFloat.of_Z 1)
                  then PyFloat.mul f (PyFloat.of_Z 100) else f) = Ok n ->
  yields_value (async_parse_processor_usage uid msg) (VInt n).
Proof.
  intros Hv Hd Hf Hn. unfold async_parse_processor_usage. run.
  unfold py_float. rewrite (of_string_ascii _ _ Hf), Hf.
  cbn [bind]. cbv zeta. rewrite Hn. cbn [bind].
  value_result.
Qed.

(** C5: the processor usage is the data value read as a float, times
    100 when it is at most one, cut to its integer part: "0.42" gives
    42 and "77" gives 77 (and "0.999" gives 99, "1" gives 100, "1.5"
    gives 1). *)
Theorem processor_usage_percent (uid : string) (msg value_1 : pyval) (s : string) :
  value_1_of msg = Ok value_1 ->
  data_anchor value_1 = Ok (PStr s) ->
  (forall f n,
      PyFloat.of_string s = Some f ->
      PyFloat.to_int (if PyFloat.leb f (PyFloat.of_Z 1)
                      then PyFloat.mul f (PyFloat.of_Z 100) else f) = Ok n ->
      yields_value (async_parse_processor_usage uid msg) (VInt n)) /\
  (s = "0.42" -> yields_value (async_parse_processor_usage uid msg) (VInt 42)) /\
  (s = "77" -> yields_value (async_parse_processor_usage uid msg) (VInt 77)) /\
  (s = "0.999" -> yields_value (async_parse_processor_usage uid msg) (VInt 99)) /\
  (s = "1" -> yields_value (async_parse_processor_usage uid msg) (VInt 100)) /\
  (s = "1.5" -> yields_value (async_parse_processor_usage uid msg) (VInt 1)).
Proof.
  intros Hv Hd.
  split; [intros f n Hf Hn; exact (processor_usage_run _ _ _ _ _ _ Hv Hd Hf Hn)|].
  repeat apply conj; intros ->;
    (eapply processor_usage_run;
     [exact Hv | exact Hd | vm_compute; reflexivity | vm_compute; reflexivity]).
Qed.

(** A string that does not parse gives no time stamp. *)
Lemma local_datetime_or_none_invalid (d : pyval) :
  parse_datetime d = Raise ValueError \/ parse_datetime d = Ok None ->
  local_datetime_or_none d = Ok None.
Proof. unfold local_datetime_or_none. intros [-> | ->]; reflexivity. Qed.

(** C6: when the data value fails to parse as a date and time
    ([parse_datetime] raises [ValueError] or finds nothing), each of the
    four time stamp parsers still returns an event, and its value is
    [None]. *)
Theorem datetime_parsers_invalid_value (uid : string) (msg value_1 d : pyval) :
  value_1_of msg = Ok value_1 ->
  data_anchor value_1 = Ok d ->
  parse_datetime d = Raise ValueError \/ parse_datetime d = Ok None ->
  yields_value (async_parse_last_reboot uid msg) (VPy PNone) /\
  yields_value (async_parse_last_reset uid msg) (VPy PNone) /\
  yields_value (async_parse_backup_last uid msg) (VPy PNone) /\
  yields_value (async_parse_last_clock_sync uid msg) (VPy PNone).
Proof.
  intros Hv Hd Hp. apply local_datetime_or_none_invalid in Hp.
  repeat apply conj;
    unfold async_parse_last_reboot, async_parse_last_reset,
      async_parse_backup_last, async_parse_last_clock_sync;
    run; value_result.
Qed.

Lemma try_except_Some_inv {A} (body : res (option A)) (caught : list exn) (a : A) :
  try_except body caught (Ok None) = Ok (Some a) -> body = Ok (Some a).
Proof.
  destruct body as [o|e]; simpl; [done|]. case_bool_decide; discriminate.
Qed.

(** From [parser uid msg = Ok (Some e)] to the event that was built. *)
Ltac invert_run H :=
  apply try_except_Some_inv in H;
  repeat (let x := fresh "x" in let Hx := fresh "Hx" in
          apply bind_Ok_inv in H as (x & Hx & H));
  cbv zeta in H;
  repeat (let x := fresh "x" in let Hx := fresh "Hx" in
          apply bind_Ok_inv in H as (x & Hx & H));
  repeat match type of H with
    | (let '(_, _) := ?p in _) = _ => destruct p
    end;
  injection H as <-.

(** C8: an event is enabled unless its constructor is told otherwise:
    the last reboot is left enabled, the last reset, the last backup and
    the last clock synchronization are disabled. *)
Theorem entity_enabled_defaults (uid : string) (msg : pyval) (e : Event) :
  (forall name platform device_class unit value entity_category,
      entity_enabled (new_Event uid name platform device_class unit value
                        entity_category None) = true) /\
  (async_parse_last_reboot uid msg = Ok (Some e) -> entity_enabled e = true) /\
  (async_parse_last_reset uid msg = Ok (Some e) -> entity_enabled e = false) /\
  (async_parse_backup_last uid msg = Ok (Some e) -> entity_enabled e = false) /\
  (async_parse_last_clock_sync uid msg = Ok (Some e) -> entity_enabled e = false).
Proof.
  split; [reflexivity|].
  repeat apply conj; intros H;
    unfold async_parse_last_reboot, async_parse_last_reset,
      async_parse_backup_last, async_parse_last_clock_sync in H;
    invert_run H; reflexivity.
Qed.

(** ** The registry holds the registrations, and nothing else *)

Lemma lookup_foldl_register (l : list (string * parser))
    (m : gmap string parser) (topic : string) (func : parser) :
  NoDup l.*1 ->
  (forall k, k ∈ l.*1 -> m !! k = None) ->
  foldl (fun self '(name, func) => register name func self) m l !! topic = Some func
  <-> (topic, func) ∈ l \/ m !! topic = Some func.
Proof.
  revert m. induction l as [|[k f] l IH]; intros m Hnd Hm; cbn [foldl].
  - split; [auto | intros [H | H]; [by apply elem_of_nil in H | done]].
  - cbn in Hnd. apply NoDup_cons in Hnd as [Hk Hnd].
    rewrite IH; [|done|]; unfold register.
    + rewrite elem_of_cons, lookup_insert_Some.
      split.
      * intros [H | [[<- <-] | [Hne H]]]; auto.
      * intros [[[= -> ->] | H] | H]; auto.
        right. right. split; [|done].
        intros ->. rewrite Hm in H; [done | apply elem_of_cons; by left].
    + intros k' Hk'. rewrite lookup_insert_ne.
      * apply Hm. apply elem_of_cons. by right.
      * intros ->. done.
Qed.

Lemma registrations_NoDup : NoDup registrations.*1.
Proof. apply (bool_decide_unpack _). vm_compute. exact I. Qed.

Lemma PARSERS_lookup (topic : string) (func : parser) :
  PARSERS !! topic = Some func <-> (topic, func) ∈ registrations.
Proof.
  unfold PARSERS. rewrite lookup_foldl_register.
  - rewrite lookup_empty. split; [intros [H | H]; done | auto].
  - exact registrations_NoDup.
  - intros k _. apply lookup_empty.
Qed.

Lemma PARSERS_lookup_None (topic : string) :
  topic ∉ registrations.*1 -> PARSERS !! topic = None.
Proof.
  intros Hn. destruct (PARSERS !! topic) as [func|] eqn:E; [|done].
  apply PARSERS_lookup in E. exfalso. apply Hn.
  apply list_elem_of_fmap. by exists (topic, func).
Qed.

(** C7: looking up a registered topic gives the parser registered for
    it; the three ImageTooBlurry topics give one and the same parser;
    and a lookup finds something only for a topic that is literally
    among the registered ones: neither a prefix of a registered topic
    nor a pattern is looked up successfully. *)
Theorem registry_exact_lookup :
  (forall topic func, (topic, func) ∈ registrations -> PARSERS !! topic = Some func) /\
  (PARSERS !! "tns1:VideoSource/ImageTooBlurry/AnalyticsService"
     = Some async_parse_image_too_blurry /\
   PARSERS !! "tns1:VideoSource/ImageTooBlurry/ImagingService"
     = Some async_parse_image_too_blurry /\
   PARSERS !! "tns1:VideoSource/ImageTooBlurry/RecordingService"
     = Some async_parse_image_too_blurry) /\
  (forall topic func, PARSERS !! topic = Some func -> topic ∈ registrations.*1) /\
  PARSERS !! "tns1:VideoSource/ImageTooBlurry" = None /\
  PARSERS !! "tns1:VideoSource/ImageTooBlurry/*" = None /\
  PARSERS !! "tns1:VideoSource/MotionAlarm/Extra" = None.
Proof.
  split; [intros topic func; apply PARSERS_lookup|].
  split.
  { repeat apply conj; apply PARSERS_lookup; unfold registrations; set_solver. }
  split.
  { intros topic func H. apply PARSERS_lookup in H.
    apply list_elem_of_fmap. by exists (topic, func). }
  repeat apply conj; apply PARSERS_lookup_None;
    apply (bool_decide_eq_false_1 _); vm_compute; reflexivity.
Qed.

(** ** Every registered parser *)

Ltac unfold_parsers :=
  unfold
    async_parse_motion_alarm, async_parse_image_too_blurry,
    async_parse_image_too_dark, async_parse_image_too_bright,
    async_parse_scene_change, async_parse_detected_sound,
    async_parse_field_detector, async_parse_cell_motion_detector,
    async_parse_motion_region_detector, async_parse_tamper_detector,
    async_parse_dog_cat_detector, async_parse_vehicle_detector,
    async_parse_person_detector, async_parse_face_detector,
    async_parse_visitor_detector, async_parse_digital_input,
    async_parse_relay, async_parse_storage_failure,
    async_parse_processor_usage, async_parse_last_reboot,
    async_parse_last_reset, async_parse_backup_last,
    async_parse_last_clock_sync, async_parse_jobstate,
    async_parse_linedetector_crossed,
    async_parse_count_aggregation_counter.

Ltac unfold_parsers_in H :=
  unfold
    async_parse_motion_alarm, async_parse_image_too_blurry,
    async_parse_image_too_dark, async_parse_image_too_bright,
    async_parse_scene_change, async_parse_detected_sound,
    async_parse_field_detector, async_parse_cell_motion_detector,
    async_parse_motion_region_detector, async_parse_tamper_detector,
    async_parse_dog_cat_detector, async_parse_vehicle_detector,
    async_parse_person_detector, async_parse_face_detector,
    async_parse_visitor_detector, async_parse_digital_input,
    async_parse_relay, async_parse_storage_failure,
    async_parse_processor_usage, async_parse_last_reboot,
    async_parse_last_reset, async_parse_backup_last,
    async_parse_last_clock_sync, async_parse_jobstate,
    async_parse_linedetector_crossed,
    async_parse_count_aggregation_counter in H.

(** Reduce a statement about a registered parser to one statement for
    each registration, with the parser unfolded. *)
Ltac each_registered H :=
  apply PARSERS_lookup in H; unfold registrations in H;
  repeat (apply elem_of_cons in H as [H | H]; [injection H as -> -> |]);
  [.. | by apply elem_of_nil in H];
  repeat match goal with
    | H' : _ = _ |- _ => progress unfold_parsers_in H'
    end;
  unfold_parsers.

Lemma getattr_Raise (o : pyval) (a : string) (e : exn) :
  getattr o a = Raise e -> e = AttributeError.
Proof.
  destruct o as [ | | |fields]; simpl; try congruence.
  destruct (assoc a fields); congruence.
Qed.

Lemma value_1_of_Raise (msg : pyval) (e : exn) :
  value_1_of msg = Raise e -> e = AttributeError.
Proof.
  unfold value_1_of. cbn [bind]. intros H.
  apply bind_Raise_inv in H as [H | (m & _ & H)]; by apply getattr_Raise in H.
Qed.

(** C2, where the code departs from it: the line detector puts the
    token "vsconf" into the uid as it is, on the very notification on
    which the counter next to it puts "VideoSourceToken". *)
Theorem linedetector_keeps_vsconf (uid : string) :
  let source := [("VideoSourceConfigurationToken", "vsconf");
                 ("VideoAnalyticsConfigurationToken", "va");
                 ("Rule", "line")] in
  let data := [("ObjectId", "7")] in
  let identity := render (mk_value_1 source data) in
  async_parse_linedetector_crossed uid (mk_message source data)
  = Ok (Some (new_Event (uid +:+ "_" +:+ identity +:+ "_vsconf_va_line")
                "Line Detector Crossed" "sensor" None None
                (VPy (PStr "7")) (Some DIAGNOSTIC) None)) /\
  async_parse_count_aggregation_counter uid (mk_message source data)
  = Ok (Some (new_Event (uid +:+ "_" +:+ identity +:+ "_VideoSourceToken_va_line")
                "Count Aggregation Counter" "sensor" None None
                (VPy (PStr "7")) (Some DIAGNOSTIC) None)).
Proof.
  intros source data identity. subst source data identity.
  split; vm_compute; reflexivity.
Qed.

(** ** The uid of an event *)

Lemma append_inj_l (a x y : string) : a +:+ x = a +:+ y -> x = y.
Proof. induction a as [|c a IH]; cbn; [done | intros [= H]; auto]. Qed.

Lemma append_eq_prefix (a b x y : string) :
  a +:+ x = b +:+ y -> String.prefix a b = true \/ String.prefix b a = true.
Proof.
  revert b. induction a as [|c a IH]; intros [|c' b]; cbn; auto.
  intros [= <- H]. destruct (IH _ H) as [Hp | Hp]; [left | right];
    destruct (Ascii.ascii_dec c c); done.
Qed.

(** Two uids that end in different rule names differ, when the texts of
    the two messages are equal or neither of them begins with the other. *)
Lemma uid_rule_differs (u s1 s2 a b r1 r2 : string) :
  r1 <> r2 ->
  (String.prefix s1 s2 = true \/ String.prefix s2 s1 = true -> s1 = s2) ->
  u +:+ "_" +:+ s1 +:+ "_" +:+ a +:+ "_" +:+ b +:+ "_" +:+ r1
  <> u +:+ "_" +:+ s2 +:+ "_" +:+ a +:+ "_" +:+ b +:+ "_" +:+ r2.
Proof.
  intros Hr Hs H. do 2 apply append_inj_l in H.
  pose proof (Hs (append_eq_prefix _ _ _ _ H)) as ->.
  do 6 apply append_inj_l in H. done.
Qed.

Lemma picked_app (name : string) (h : string -> string)
    (l1 l2 : list (string * string)) (x : pyval) :
  picked name h (l1 ++ l2)%list x = picked name h l2 (picked name h l1 x).
Proof. apply fold_left_app. Qed.

Lemma picked_absent (name : string) (h : string -> string)
    (l : list (string * string)) (x : pyval) :
  Forall (fun nv => nv.1 <> name) l -> picked name h l x = x.
Proof.
  intros Hl. revert x. induction Hl as [|nv l Hnv _ IH]; intros x; [done|].
  cbn. destruct (String.eqb_spec nv.1 name); [done | apply IH].
Qed.

(** The item named [name] that no later item of that name follows is the
    one the loop keeps. *)
Lemma picked_last (name : string) (h : string -> string)
    (pre post : list (string * string)) (r : string) (x : pyval) :
  Forall (fun nv => nv.1 <> name) post ->
  picked name h (pre ++ (name, r) :: post)%list x = PStr (h r).
Proof.
  intros Hpost. rewrite picked_app. cbn. rewrite String.eqb_refl.
  by apply picked_absent.
Qed.

(** An item of another name changes nothing. *)
Lemma picked_other (name other : string) (h : string -> string)
    (pre post : list (string * string)) (r : string) (x : pyval) :
  String.eqb other name = false ->
  picked name h (pre ++ (other, r) :: post)%list x = picked name h (pre ++ post)%list x.
Proof. intros Hne. rewrite !picked_app. cbn. by rewrite Hne. Qed.

Ltac head_of t :=
  match t with
  | bind ?m _ => head_of m
  | _ => t
  end.

(** Case analysis on the next step of the run [H], shared with [H']. *)
Ltac step H H' :=
  match type of H with
  | bind ?m _ = Ok _ =>
      let h := head_of m in
      let E := fresh "E" in
      destruct h eqn:E; try rewrite E in H'; cbn [bind] in H, H';
      try discriminate H
  | (let '(_, _) := ?p in _) = _ => destruct p
  end.

Lemma uid_same_source (topic : string) (func : parser) (uid : string)
    (msg1 msg2 v1 v2 : pyval) (e1 e2 : Event) :
  PARSERS !! topic = Some func ->
  value_1_of msg1 = Ok v1 -> value_1_of msg2 = Ok v2 ->
  py_str v1 = py_str v2 ->
  getattr v1 "Source" = getattr v2 "Source" ->
  func uid msg1 = Ok (Some e1) -> func uid msg2 = Ok (Some e2) ->
  event_uid e1 = event_uid e2.
Proof.
  intros Hreg Hv1 Hv2 Hstr Hsrc H1 H2.
  unfold value_1_of in Hv1, Hv2. cbn [bind] in Hv1, Hv2.
  each_registered Hreg;
    apply try_except_Some_inv in H1, H2;
    cbn [bind] in H1, H2; rewrite Hv1 in H1; rewrite Hv2 in H2;
    cbn [bind] in H1, H2; cbv zeta in H1, H2;
    rewrite ?Hsrc in H1;
    repeat step H1 H2; repeat step H2 H1;
    injection H1 as <-; injection H2 as <-;
    cbn [event_uid new_Event]; rewrite Hstr; reflexivity.
Qed.

Lemma uid_rule_discriminates (func : parser) (uid : string)
    (msg1 msg2 v1 v2 d1 d2 : pyval)
    (pre post : list (string * string)) (r1 r2 : string) :
  func ∈ rule_parsers ->
  value_1_of msg1 = Ok v1 -> value_1_of msg2 = Ok v2 ->
  source_items v1 = Ok (map simple_item (pre ++ ("Rule", r1) :: post)%list) ->
  source_items v2 = Ok (map simple_item (pre ++ ("Rule", r2) :: post)%list) ->
  data_anchor v1 = Ok d1 -> data_anchor v2 = Ok d2 ->
  Forall (fun nv => nv.1 <> "Rule") post ->
  (String.prefix (py_str v1) (py_str v2) = true \/
   String.prefix (py_str v2) (py_str v1) = true -> py_str v1 = py_str v2) ->
  r1 <> r2 ->
  exists e1 e2,
    func uid msg1 = Ok (Some e1) /\ func uid msg2 = Ok (Some e2) /\
    event_uid e1 <> event_uid e2.
Proof.
  intros Hin Hv1 Hv2 Hs1 Hs2 Hd1 Hd2 Hpost Hid Hr.
  unfold rule_parsers in Hin.
  repeat (apply elem_of_cons in Hin as [-> | Hin]);
    [.. | by apply elem_of_nil in Hin];
    unfold async_parse_detected_sound, async_parse_field_detector,
      async_parse_cell_motion_detector, async_parse_motion_region_detector,
      async_parse_tamper_detector, async_parse_linedetector_crossed,
      async_parse_count_aggregation_counter;
    run; do 2 run_loop3; cbn [try_except];
    eexists _, _; (split; [reflexivity|]); (split; [reflexivity|]);
    cbn [event_uid new_Event];
    rewrite !picked_last by exact Hpost;
    rewrite !(picked_other _ "Rule") by reflexivity;
    cbn [py_str id]; (apply uid_rule_differs; [exact Hr | exact Hid]).
Qed.

(** C3: the uid is a function of the device uid, of the text of the
    message and of its source items: two notifications that agree on
    these get the same uid from every registered parser, whatever else
    differs; and the parsers that read a [Rule] item give two
    notifications that differ in the value of that item different uids
    (the texts of the two messages being equal, or neither of them the
    beginning of the other). *)
Theorem uid_determinism :
  (forall topic func uid msg1 msg2 v1 v2 e1 e2,
      PARSERS !! topic = Some func ->
      value_1_of msg1 = Ok v1 -> value_1_of msg2 = Ok v2 ->
      py_str v1 = py_str v2 ->
      getattr v1 "Source" = getattr v2 "Source" ->
      func uid msg1 = Ok (Some e1) -> func uid msg2 = Ok (Some e2) ->
      event_uid e1 = event_uid e2) /\
  (forall func uid msg1 msg2 v1 v2 d1 d2 pre post r1 r2,
      func ∈ rule_parsers ->
      value_1_of msg1 = Ok v1 -> value_1_of msg2 = Ok v2 ->
      source_items v1 = Ok (map simple_item (pre ++ ("Rule", r1) :: post)%list) ->
      source_items v2 = Ok (map simple_item (pre ++ ("Rule", r2) :: post)%list) ->
      data_anchor v1 = Ok d1 -> data_anchor v2 = Ok d2 ->
      Forall (fun nv => nv.1 <> "Rule") post ->
      (String.prefix (py_str v1) (py_str v2) = true \/
       String.prefix (py_str v2) (py_str v1) = true -> py_str v1 = py_str v2) ->
      r1 <> r2 ->
      exists e1 e2,
        func uid msg1 = Ok (Some e1) /\ func uid msg2 = Ok (Some e2) /\
        event_uid e1 <> event_uid e2).
Proof.
  split; [exact uid_same_source | exact uid_rule_discriminates].
Qed.

(** ** Further properties of the parsers *)

Lemma for_each_app {S} (st : S) (l1 l2 : list pyval) (body : S -> pyval -> res S) :
  for_each st (l1 ++ l2)%list body
  = for_each st l1 body ≫= (fun st' => for_each st' l2 body).
Proof.
  revert st. induction l1 as [|x l1 IH]; intros st; cbn; [done|].
  destruct (body st x); cbn; [apply IH | done].
Qed.

Lemma for_each_one (name : string) (g : pyval -> res pyval) (h : string -> string)
    (items : list (string * string)) (a : pyval) :
  (forall s, g (PStr s) = Ok (PStr (h s))) ->
  for_each a (map simple_item items) (fun a source =>
    a ← assign_if_named source name g a;
    Ok a)
  = Ok (picked name h items a).
Proof.
  intros Hg. revert a. induction items as [|nv items IH]; intros a; [reflexivity|].
  cbn [map for_each]. rewrite assign_if_named_simple_item.
  cbn [picked fold_left].
  destruct (String.eqb nv.1 name); [rewrite Hg|]; cbn [bind]; apply IH.
Qed.

Lemma _normalize_video_source_normalized (s : string) :
  _normalize_video_source (PStr s) = Ok (PStr (normalized s)).
Proof. reflexivity. Qed.

Lemma normalized_empty : normalized "" = "".
Proof. reflexivity. Qed.

(** What the loop keeps is the value of the last item of the name. *)
Lemma picked_find (name : string) (h : string -> string)
    (items : list (string * string)) (x : pyval) :
  picked name h items x
  = match find (fun nv => String.eqb nv.1 name) (rev items) with
    | Some nv => PStr (h nv.2)
    | None => x
    end.
Proof.
  revert x. induction items as [|nv items IH] using rev_ind; intros x; [done|].
  rewrite picked_app, rev_app_distr. cbn.
  destruct (String.eqb nv.1 name); [done | apply IH].
Qed.

Lemma py_str_picked (name : string) (h : string -> string)
    (items : list (string * string)) :
  h "" = "" ->
  py_str (picked name h items (PStr "")) = h (last_value name items).
Proof.
  intros Hh. rewrite picked_find. unfold last_value.
  destruct (find _ (rev items)); cbn; [done | by rewrite Hh].
Qed.

Ltac run_loop1 :=
  erewrite for_each_one
    by first [exact _normalize_video_source_normalized | exact Ok_str];
  cbn [bind].

Ltac run_loop3n :=
  erewrite for_each_three
    by first [exact _normalize_video_source_normalized | exact Ok_str];
  cbn [bind].

Ltac in_list H :=
  repeat (apply elem_of_cons in H as [-> | H]); [.. | by apply elem_of_nil in H].

(** X1: on a well-formed notification a rule parser returns an event
    whose uid joins the device uid, the text of the message and three
    tokens with "_"; a token is the value of the last source item of its
    name, the empty string when there is none (so also on an empty source
    list), and the video source token is normalized by the five parsers
    that normalize. *)
Theorem rule_parsers_uid (uid : string) (msg value_1 d : pyval)
    (items : list (string * string)) :
  value_1_of msg = Ok value_1 ->
  source_items value_1 = Ok (map simple_item items) ->
  data_anchor value_1 = Ok d ->
  (forall func, func ∈ normalizing_rule_parsers ->
     exists e, func uid msg = Ok (Some e) /\
       event_uid e = uid +:+ "_" +:+ py_str value_1
         +:+ "_" +:+ normalized (last_value "VideoSourceConfigurationToken" items)
         +:+ "_" +:+ last_value "VideoAnalyticsConfigurationToken" items
         +:+ "_" +:+ last_value "Rule" items) /\
  (exists e, async_parse_linedetector_crossed uid msg = Ok (Some e) /\
     event_uid e = uid +:+ "_" +:+ py_str value_1
       +:+ "_" +:+ last_value "VideoSourceConfigurationToken" items
       +:+ "_" +:+ last_value "VideoAnalyticsConfigurationToken" items
       +:+ "_" +:+ last_value "Rule" items) /\
  (exists e, async_parse_detected_sound uid msg = Ok (Some e) /\
     event_uid e = uid +:+ "_" +:+ py_str value_1
       +:+ "_" +:+ last_value "AudioSourceConfigurationToken" items
       +:+ "_" +:+ last_value "AudioAnalyticsConfigurationToken" items
       +:+ "_" +:+ last_value "Rule" items).
Proof.
  intros Hv Hs Hd. split; [|split].
  - intros func Hin. unfold normalizing_rule_parsers in Hin. in_list Hin;
      unfold async_parse_field_detector, async_parse_cell_motion_detector,
        async_parse_motion_region_detector, async_parse_tamper_detector,
        async_parse_count_aggregation_counter;
      run; run_loop3n; cbn [try_except]; eexists; (split; [reflexivity|]);
      cbn [event_uid new_Event];
      rewrite (py_str_picked _ normalized) by exact normalized_empty;
      rewrite !(py_str_picked _ id) by reflexivity; reflexivity.
  - unfold async_parse_linedetector_crossed.
    run; run_loop3n; cbn [try_except]; eexists; (split; [reflexivity|]).
    cbn [event_uid new_Event]. rewrite !(py_str_picked _ id) by reflexivity.
    reflexivity.
  - unfold async_parse_detected_sound.
    run; run_loop3n; cbn [try_except]; eexists; (split; [reflexivity|]).
    cbn [event_uid new_Event]. rewrite !(py_str_picked _ id) by reflexivity.
    reflexivity.
Qed.

(** X2: the five detectors that look for the source item named [Source]
    put the normalized value of the last such item into the uid, and the
    empty string when there is none. *)
Theorem detector_parsers_uid (func : parser) (uid : string) (msg value_1 d : pyval)
    (items : list (string * string)) :
  func ∈ detector_parsers ->
  value_1_of msg = Ok value_1 ->
  source_items value_1 = Ok (map simple_item items) ->
  data_anchor value_1 = Ok d ->
  yields_bool (func uid msg) (d = PStr "true") /\
  exists e, func uid msg = Ok (Some e) /\
    event_uid e = uid +:+ "_" +:+ py_str value_1
      +:+ "_" +:+ normalized (last_value "Source" items).
Proof.
  intros Hin Hv Hs Hd. unfold detector_parsers in Hin. in_list Hin;
    unfold async_parse_dog_cat_detector, async_parse_vehicle_detector,
      async_parse_person_detector, async_parse_face_detector,
      async_parse_visitor_detector;
    run; run_loop1; cbn [try_except];
    (split; [eexists _, _; split; [reflexivity|]; split; [reflexivity|];
             apply py_eq_str_true|]);
    eexists; (split; [reflexivity|]); cbn [event_uid new_Event];
    rewrite (py_str_picked _ normalized) by exact normalized_empty; reflexivity.
Qed.

Ltac unfold_loop_parsers :=
  unfold async_parse_detected_sound, async_parse_field_detector,
    async_parse_cell_motion_detector, async_parse_motion_region_detector,
    async_parse_tamper_detector, async_parse_linedetector_crossed,
    async_parse_count_aggregation_counter,
    async_parse_dog_cat_detector, async_parse_vehicle_detector,
    async_parse_person_detector, async_parse_face_detector,
    async_parse_visitor_detector.

(** X3: one source item without a [Name] (after well-formed ones, and
    whatever follows it) makes every parser that loops over the source
    items return [None]: the whole notification is dropped. *)
Theorem nameless_source_item_drops_event (func : parser) (uid : string)
    (msg value_1 x : pyval) (pre : list (string * string)) (rest : list pyval) :
  func ∈ (rule_parsers ++ detector_parsers)%list ->
  value_1_of msg = Ok value_1 ->
  source_items value_1 = Ok (map simple_item pre ++ x :: rest)%list ->
  getattr x "Name" = Raise AttributeError ->
  func uid msg = Ok None.
Proof.
  intros Hin Hv Hs Hx. unfold rule_parsers, detector_parsers in Hin.
  cbn [app] in Hin. in_list Hin; unfold_loop_parsers;
    run; rewrite for_each_app; first [run_loop3n | run_loop1];
    cbn [for_each]; unfold assign_if_named; rewrite Hx; reflexivity.
Qed.

(** X4: an empty [Data.SimpleItem] list makes every registered parser
    raise [IndexError], the source items being well-formed and not
    empty. *)
Theorem empty_data_list_raises (topic : string) (func : parser) (uid : string)
    (msg value_1 : pyval) (items : list (string * string)) :
  PARSERS !! topic = Some func ->
  value_1_of msg = Ok value_1 ->
  Ok value_1 >. "Source" >. "SimpleItem" = Ok (PList (map simple_item items)) ->
  items <> [] ->
  Ok value_1 >. "Data" >. "SimpleItem" = Ok (PList []) ->
  func uid msg = Raise IndexError.
Proof.
  intros Hreg Hv Hs Hne Hd.
  destruct items as [|nv items]; [exfalso; apply Hne; reflexivity|].
  each_registered Hreg; run; cbn [py_iter bind];
    first [run_loop3n | run_loop1 | idtac]; reflexivity.
Qed.

(** X5: on an empty [Source.SimpleItem] list the parsers that read the
    first source item raise [IndexError], whatever the data; the parsers
    that loop over the source items return an event all the same. *)
Theorem empty_source_list (uid : string) (msg value_1 : pyval) :
  value_1_of msg = Ok value_1 ->
  Ok value_1 >. "Source" >. "SimpleItem" = Ok (PList []) ->
  (forall func, func ∈ anchor_parsers -> func uid msg = Raise IndexError) /\
  (forall func d, func ∈ (rule_parsers ++ detector_parsers)%list ->
     data_anchor value_1 = Ok d ->
     exists e, func uid msg = Ok (Some e)).
Proof.
  intros Hv Hs. split.
  - intros func Hin. unfold anchor_parsers in Hin. in_list Hin;
      unfold async_parse_motion_alarm, async_parse_image_too_blurry,
        async_parse_image_too_dark, async_parse_image_too_bright,
        async_parse_scene_change, async_parse_digital_input,
        async_parse_relay, async_parse_storage_failure, async_parse_jobstate;
      run; reflexivity.
  - intros func d Hin Hd. unfold rule_parsers, detector_parsers in Hin.
    cbn [app] in Hin. in_list Hin; unfold_loop_parsers;
      run; cbn [py_iter bind for_each]; run; eexists; reflexivity.
Qed.

(** From [H : parser uid msg = Ok (Some e)] to the steps of the run and
    the event that was built. *)
Ltac invert_parser H :=
  apply try_except_Some_inv in H;
  repeat first
    [ apply bind_Ok_inv in H as (? & ? & H)
    | match type of H with
      | (let '(_, _) := ?p in _) = _ => destruct p
      end
    | progress cbv beta zeta in H ];
  injection H as <-.

Lemma append_empty_r (s : string) : s +:+ "" = s.
Proof.
  induction s as [|c s IH]; [reflexivity|].
  change (String c (s +:+ "") = String c s). by rewrite IH.
Qed.

(** X6: what kind of value an event carries goes with its platform,
    device class and unit, for every registered parser: the platform is
    "binary_sensor" or "sensor", and it is "binary_sensor" exactly when
    the value is a boolean; a time stamp class comes with a time stamp or
    [None]; the unit "percent" comes with an integer. *)
Theorem event_value_kinds (topic : string) (func : parser) (uid : string)
    (msg : pyval) (e : Event) :
  PARSERS !! topic = Some func ->
  func uid msg = Ok (Some e) ->
  (event_platform e = "binary_sensor" \/ event_platform e = "sensor") /\
  (event_platform e = "binary_sensor" <-> exists b, value e = VBool b) /\
  (device_class e = Some "timestamp" ->
     (exists t, value e = VDatetime t) \/ value e = VPy PNone) /\
  (unit_of_measurement e = Some "percent" -> exists n, value e = VInt n).
Proof.
  intros Hreg H.
  each_registered Hreg; invert_parser H; cbn;
    (split; [auto|]);
    (split; [split; [intros ?; try discriminate; eauto
                    | intros [b Hb]; first [reflexivity | discriminate Hb
                        | match type of Hb with
                          | datetime_or_none ?x = _ => destruct x; discriminate Hb
                          end]]|]);
    (split; [intros ?; try discriminate;
             match goal with
             | |- context [datetime_or_none ?x] => destruct x; cbn; eauto
             end
            | intros ?; try discriminate; eauto]).
Qed.

(** X7: the uid of every event begins with the device uid, "_" and the
    text of the message. *)
Theorem event_uid_prefix (topic : string) (func : parser) (uid : string)
    (msg : pyval) (e : Event) :
  PARSERS !! topic = Some func ->
  func uid msg = Ok (Some e) ->
  exists value_1 rest,
    value_1_of msg = Ok value_1 /\
    event_uid e = uid +:+ "_" +:+ py_str value_1 +:+ rest.
Proof.
  intros Hreg H. unfold value_1_of.
  each_registered Hreg; invert_parser H; cbn [event_uid new_Event];
    eexists _, _; (split; [eassumption|]);
    first [reflexivity | by rewrite append_empty_r].
Qed.

(** X8: an event that is disabled by default is a diagnostic time stamp
    sensor, for every registered parser. *)
Theorem disabled_events_are_diagnostic_timestamps (topic : string) (func : parser)
    (uid : string) (msg : pyval) (e : Event) :
  PARSERS !! topic = Some func ->
  func uid msg = Ok (Some e) ->
  entity_enabled e = false ->
  event_platform e = "sensor" /\ device_class e = Some "timestamp" /\
  entity_category e = Some DIAGNOSTIC.
Proof.
  intros Hreg H.
  each_registered Hreg; invert_parser H; cbn; intros Hen;
    first [discriminate Hen | done].
Qed.

(** X9: the comparisons with the literals are exact: whichever the
    registered parser, the value of an event is [True] only on one of the
    strings "true", "active", "Active" and "1". *)
Theorem true_only_on_the_literals (topic : string) (func : parser) (uid : string)
    (msg : pyval) (e : Event) :
  PARSERS !! topic = Some func ->
  func uid msg = Ok (Some e) ->
  value e = VBool true ->
  exists value_1 d,
    value_1_of msg = Ok value_1 /\ data_anchor value_1 = Ok d /\
    (d = PStr "true" \/ d = PStr "active" \/ d = PStr "Active" \/ d = PStr "1").
Proof.
  intros Hreg H. unfold value_1_of, data_anchor.
  each_registered Hreg; invert_parser H; cbn [value new_Event]; intros Hb;
    try discriminate Hb;
    try match type of Hb with
      | datetime_or_none ?x = _ => destruct x; discriminate Hb
      end;
    injection Hb as Hb;
    eexists _, _; (split; [eassumption|]); (split; [eassumption|]);
    first [ apply py_eq_str_true in Hb; auto
          | apply orb_prop in Hb as [Hb | Hb];
            [| apply orb_prop in Hb as [Hb | Hb]; [|discriminate Hb]];
            apply py_eq_str_true in Hb; auto ].
Qed.

(** X10: what leaves the processor usage parser: [ValueError] when the
    data value is an ASCII text that is no number, or reads as NaN,
    [OverflowError] when it reads as an infinity or when a reading of at
    most one overflows on being multiplied by 100, [TypeError] when the
    value is [None]. *)
Theorem processor_usage_errors (uid : string) (msg value_1 : pyval) :
  value_1_of msg = Ok value_1 ->
  (forall s, data_anchor value_1 = Ok (PStr s) ->
     PyFloat.is_ascii s = true /\ PyFloat.of_string s = None \/
     PyFloat.of_string s = Some S754_nan ->
     async_parse_processor_usage uid msg = Raise ValueError) /\
  (forall s b, data_anchor value_1 = Ok (PStr s) ->
     PyFloat.of_string s = Some (S754_infinity b) ->
     async_parse_processor_usage uid msg = Raise OverflowError) /\
  (forall s f b, data_anchor value_1 = Ok (PStr s) ->
     PyFloat.of_string s = Some f ->
     PyFloat.leb f (PyFloat.of_Z 1) = true ->
     PyFloat.mul f (PyFloat.of_Z 100) = S754_infinity b ->
     async_parse_processor_usage uid msg = Raise OverflowError) /\
  (data_anchor value_1 = Ok PNone ->
   async_parse_processor_usage uid msg = Raise TypeError).
Proof.
  intros Hv. unfold async_parse_processor_usage. repeat apply conj.
  - intros s Hd [[Ha Hf] | Hf]; run; unfold py_float;
      [rewrite Ha | rewrite (of_string_ascii _ _ Hf)]; rewrite Hf; reflexivity.
  - intros s b Hd Hf; run; unfold py_float;
      rewrite (of_string_ascii _ _ Hf), Hf; destruct b; reflexivity.
  - intros s f b Hd Hf Hle Hmul; run; unfold py_float;
      rewrite (of_string_ascii _ _ Hf), Hf.
    cbn [bind]. cbv zeta. rewrite Hle, Hmul. reflexivity.
  - intros Hd; run; reflexivity.
Qed.

(** X11: a data value that parses as a date and time gives an event
    whose value is that time in the local zone, from each of the four
    time stamp parsers. *)
Theorem datetime_parsers_valid_value (func : parser) (uid : string)
    (msg value_1 d : pyval) (t t' : datetime) :
  func ∈ datetime_parsers ->
  value_1_of msg = Ok value_1 ->
  data_anchor value_1 = Ok d ->
  parse_datetime d = Ok (Some t) ->
  as_local t = Ok t' ->
  yields_value (func uid msg) (VDatetime t').
Proof.
  intros Hin Hv Hd Hp Hl. unfold datetime_parsers in Hin. in_list Hin;
    unfold async_parse_last_reboot, async_parse_last_reset,
      async_parse_backup_last, async_parse_last_clock_sync;
    run; unfold local_datetime_or_none; rewrite Hp, Hl; cbn [bind];
    value_result.
Qed.

(** X12: where an exception of the time functions goes: only a
    [ValueError] of [parse_datetime] becomes a [None] value; an
    [AttributeError] or [KeyError], of [parse_datetime] or of [as_local],
    makes the time stamp parser return [None] in place of an event; any
    other exception, and a [ValueError] of [as_local], leaves the
    parser. *)
Theorem datetime_parsers_exceptions (func : parser) (uid : string)
    (msg value_1 d : pyval) (e : exn) :
  func ∈ datetime_parsers ->
  value_1_of msg = Ok value_1 ->
  data_anchor value_1 = Ok d ->
  parse_datetime d = Raise e /\ e <> ValueError \/
  (exists t, parse_datetime d = Ok (Some t) /\ as_local t = Raise e) ->
  (e = AttributeError \/ e = KeyError -> func uid msg = Ok None) /\
  (e <> AttributeError -> e <> KeyError -> func uid msg = Raise e).
Proof.
  intros Hin Hv Hd Hcase.
  assert (Hl : local_datetime_or_none d = Raise e).
  { unfold local_datetime_or_none.
    destruct Hcase as [[-> Hne] | (t & -> & ->)]; [|reflexivity].
    by destruct e. }
  unfold datetime_parsers in Hin. in_list Hin;
    unfold async_parse_last_reboot, async_parse_last_reset,
      async_parse_backup_last, async_parse_last_clock_sync;
    run; rewrite Hl; cbn [bind];
    (split; [intros [-> | ->]; reflexivity|]);
    intros Ha Hk; by destruct e.
Qed.

(** X13: the registry and the four families of parsers: no topic is
    registered twice, so that the registry has the 34 topics of the
    decorators; every registered parser is of one of the families, and
    every parser of a family is registered. *)
Theorem registry_families :
  NoDup registrations.*1 /\ size PARSERS = 34%nat /\
  (forall topic func, PARSERS !! topic = Some func ->
     func ∈ (anchor_parsers ++ rule_parsers ++ detector_parsers
             ++ monitoring_parsers)%list) /\
  (forall func,
     func ∈ (anchor_parsers ++ rule_parsers ++ detector_parsers
             ++ monitoring_parsers)%list ->
     exists topic, PARSERS !! topic = Some func).
Proof.
  split; [exact registrations_NoDup|].
  split; [vm_compute; reflexivity|].
  split.
  - intros topic func H. apply PARSERS_lookup in H. unfold registrations in H.
    unfold anchor_parsers, rule_parsers, detector_parsers, monitoring_parsers,
      datetime_parsers. cbn [app].
    repeat (apply elem_of_cons in H as [H | H]; [injection H as -> ->; set_solver|]).
    by apply elem_of_nil in H.
  - intros func H.
    unfold anchor_parsers, rule_parsers, detector_parsers, monitoring_parsers,
      datetime_parsers in H. cbn [app] in H.
    in_list H; eexists; apply PARSERS_lookup; unfold registrations;
      repeat first [apply list_elem_of_here | apply list_elem_of_further].
Qed.

(** X14: a parser looks at [Message._value_1] only: two messages with
    the same [Message._value_1] get the same result from every registered
    parser, whatever their topics and other attributes are. *)
Theorem parsers_read_value_1_only (topic : string) (func : parser) (uid : string)
    (msg1 msg2 value_1 : pyval) :
  PARSERS !! topic = Some func ->
  value_1_of msg1 = Ok value_1 ->
  value_1_of msg2 = Ok value_1 ->
  func uid msg1 = func uid msg2.
Proof.
  intros Hreg H1 H2. unfold value_1_of in H1, H2.
  each_registered Hreg; rewrite H1, H2; reflexivity.
Qed.

(** X15: the parsers that read the first source item use its value
    whatever its name is, and ignore the items after it: the uid is the
    device uid, the text of the message and the text of that value. *)
Theorem anchor_parsers_uid (func : parser) (uid : string)
    (msg value_1 x source d : pyval) (rest : list pyval) :
  func ∈ anchor_parsers ->
  value_1_of msg = Ok value_1 ->
  Ok value_1 >. "Source" >. "SimpleItem" = Ok (PList (x :: rest)) ->
  getattr x "Value" = Ok source ->
  data_anchor value_1 = Ok d ->
  exists e, func uid msg = Ok (Some e) /\
    event_uid e = uid +:+ "_" +:+ py_str value_1 +:+ "_" +:+ py_str source.
Proof.
  intros Hin Hv Hs Hx Hd. unfold anchor_parsers in Hin. in_list Hin;
    unfold async_parse_motion_alarm, async_parse_image_too_blurry,
      async_parse_image_too_dark, async_parse_image_too_bright,
      async_parse_scene_change, async_parse_digital_input,
      async_parse_relay, async_parse_storage_failure, async_parse_jobstate;
    run; cbn [getitem lookup list_lookup bind]; rewrite Hx; cbn [bind];
    run; eexists; split; reflexivity.
Qed.

(** X16: [None] in the place of the two [SimpleItem] lists makes every
    registered parser raise [TypeError]. *)
Theorem none_for_lists_raises (topic : string) (func : parser) (uid : string)
    (msg value_1 : pyval) :
  PARSERS !! topic = Some func ->
  value_1_of msg = Ok value_1 ->
  Ok value_1 >. "Source" >. "SimpleItem" = Ok PNone ->
  Ok value_1 >. "Data" >. "SimpleItem" = Ok PNone ->
  func uid msg = Raise TypeError.
Proof.
  intros Hreg Hv Hs Hd. each_registered Hreg; run; reflexivity.
Qed.

(** ** What the parsers swallow *)

Lemma source_list_Raise (value_1 : pyval) (e : exn) :
  Ok value_1 >. "Source" >. "SimpleItem" = Raise e -> e = AttributeError.
Proof.
  cbn [bind]. intros H.
  apply bind_Raise_inv in H as [H | (o & _ & H)]; by apply getattr_Raise in H.
Qed.

(** C1, as the code has it: a parser never lets an [AttributeError] or
    a [KeyError] out, and returns [None] on a message where what fails is
    the read of an attribute or of a key: [Message._value_1] cannot be
    read; neither [Source] nor [Data] is there; record objects stand
    where the [SimpleItem] lists should be; the read of the data value
    fails so (after well-formed source items, or whatever the source for
    the parsers that read the data only); the read of the first source
    value fails so; [Source.SimpleItem] cannot be read by a parser that
    loops over it, or one of its items has no [Name], or has the name
    looked for and no [Value]. *)
Theorem parsers_swallow_attribute_and_key_errors
    (topic : string) (func : parser) (uid : string) (msg : pyval) :
  PARSERS !! topic = Some func ->
  (forall e, func uid msg = Raise e -> e <> AttributeError /\ e <> KeyError) /\
  (forall e, value_1_of msg = Raise e -> func uid msg = Ok None) /\
  (forall value_1,
      value_1_of msg = Ok value_1 ->
      getattr value_1 "Source" = Raise AttributeError ->
      getattr value_1 "Data" = Raise AttributeError ->
      func uid msg = Ok None) /\
  (forall value_1 fs fd,
      value_1_of msg = Ok value_1 ->
      Ok value_1 >. "Source" >. "SimpleItem" = Ok (PObj fs) ->
      Ok value_1 >. "Data" >. "SimpleItem" = Ok (PObj fd) ->
      func uid msg = Ok None) /\
  (forall value_1 items e,
      value_1_of msg = Ok value_1 ->
      Ok value_1 >. "Source" >. "SimpleItem" = Ok (PList (map simple_item items)) ->
      items <> [] ->
      data_anchor value_1 = Raise e ->
      e = AttributeError \/ e = KeyError ->
      func uid msg = Ok None) /\
  (forall value_1 e,
      func ∈ monitoring_parsers ->
      value_1_of msg = Ok value_1 ->
      data_anchor value_1 = Raise e ->
      e = AttributeError \/ e = KeyError ->
      func uid msg = Ok None) /\
  (forall value_1 e,
      func ∈ anchor_parsers ->
      value_1_of msg = Ok value_1 ->
      source_anchor value_1 = Raise e ->
      e = AttributeError \/ e = KeyError ->
      func uid msg = Ok None) /\
  (forall value_1 e,
      func ∈ (rule_parsers ++ detector_parsers)%list ->
      value_1_of msg = Ok value_1 ->
      Ok value_1 >. "Source" >. "SimpleItem" = Raise e ->
      func uid msg = Ok None) /\
  (forall value_1 pre x rest,
      func ∈ (rule_parsers ++ detector_parsers)%list ->
      value_1_of msg = Ok value_1 ->
      source_items value_1 = Ok (map simple_item pre ++ x :: rest)%list ->
      getattr x "Name" = Raise AttributeError ->
      func uid msg = Ok None) /\
  (forall value_1 pre x rest name,
      func ∈ rule_parsers /\ name = "Rule" \/
      func ∈ detector_parsers /\ name = "Source" ->
      value_1_of msg = Ok value_1 ->
      source_items value_1 = Ok (map simple_item pre ++ x :: rest)%list ->
      getattr x "Name" = Ok (PStr name) ->
      getattr x "Value" = Raise AttributeError ->
      func uid msg = Ok None).
Proof.
  intros Hreg. repeat apply conj.
  - intros e H. each_registered Hreg;
      by apply try_except_caught in H as (_ & ? & ?).
  - intros e H. pose proof (value_1_of_Raise _ _ H) as ->.
    unfold value_1_of in H.
    each_registered Hreg; rewrite H; reflexivity.
  - intros value_1 Hv Hs Hd.
    each_registered Hreg; run; rewrite ?Hs, ?Hd; reflexivity.
  - intros value_1 fs fd Hv Hs Hd.
    each_registered Hreg; run; destruct fs; reflexivity.
  - intros value_1 items e Hv Hs Hne Hd He.
    destruct items as [|nv items]; [exfalso; apply Hne; reflexivity|].
    each_registered Hreg; run; rewrite Hd; cbn [py_iter bind];
      first [run_loop3n | run_loop1 | idtac];
      destruct He as [-> | ->]; reflexivity.
  - intros value_1 e Hin Hv Hd He. clear Hreg.
    unfold monitoring_parsers, datetime_parsers in Hin. in_list Hin;
      unfold async_parse_processor_usage, async_parse_last_reboot,
        async_parse_last_reset, async_parse_backup_last,
        async_parse_last_clock_sync;
      run; rewrite Hd; destruct He as [-> | ->]; reflexivity.
  - intros value_1 e Hin Hv Hs He. clear Hreg.
    unfold anchor_parsers in Hin. in_list Hin;
      unfold async_parse_motion_alarm, async_parse_image_too_blurry,
        async_parse_image_too_dark, async_parse_image_too_bright,
        async_parse_scene_change, async_parse_digital_input,
        async_parse_relay, async_parse_storage_failure, async_parse_jobstate;
      run; rewrite Hs; destruct He as [-> | ->]; reflexivity.
  - intros value_1 e Hin Hv Hs. clear Hreg.
    pose proof (source_list_Raise _ _ Hs) as ->.
    unfold rule_parsers, detector_parsers in Hin. cbn [app] in Hin.
    in_list Hin; unfold_loop_parsers; run; rewrite Hs; reflexivity.
  - intros value_1 pre x rest Hin Hv Hs Hx. clear Hreg.
    unfold rule_parsers, detector_parsers in Hin. cbn [app] in Hin.
    in_list Hin; unfold_loop_parsers;
      run; rewrite for_each_app; first [run_loop3n | run_loop1];
      cbn [for_each]; unfold assign_if_named; rewrite Hx; reflexivity.
  - intros value_1 pre x rest name Hin Hv Hs Hn Hval. clear Hreg.
    destruct Hin as [[Hin ->] | [Hin ->]].
    + unfold rule_parsers in Hin. in_list Hin; unfold_loop_parsers;
        run; rewrite for_each_app; run_loop3n;
        cbn [for_each]; unfold assign_if_named; rewrite Hn; cbn;
        rewrite Hval; reflexivity.
    + unfold detector_parsers in Hin. in_list Hin; unfold_loop_parsers;
        run; rewrite for_each_app; run_loop1;
        cbn [for_each]; unfold assign_if_named; rewrite Hn; cbn;
        rewrite Hval; reflexivity.
Qed.

End Parsers.

Arguments VPy {datetime} v.
Arguments VBool {datetime} b.
Arguments VInt {datetime} n.
Arguments VDatetime {datetime} d.
Arguments event_uid {datetime} e.
Arguments value {datetime} e.
Arguments entity_enabled {datetime} e.
Arguments yields_bool {datetime} r P.
Arguments yields_value {datetime} r v.

(** ** The statements at concrete notifications

    Time stamps are seconds since the epoch, and [show] is the text of a
    value. *)

Definition sample_PARSERS : gmap string (parser Z) :=
  PARSERS Z sample_parse_datetime sample_as_local show sample_float_beyond_ascii.

(** C1 fails as stated: an empty [Data.SimpleItem] or [Source.SimpleItem]
    list makes the registered motion alarm parser raise [IndexError], and
    a processor usage that is no number makes the registered processor
    usage parser raise [ValueError]; neither exception is caught. *)
Lemma parsers_raise_on_empty_list_and_bad_number :
  sample_PARSERS !! "tns1:VideoSource/MotionAlarm"
    = Some (async_parse_motion_alarm Z show) /\
  async_parse_motion_alarm Z show "dev"
    (mk_message [("Source", "VideoSourceToken_1")] []) = Raise IndexError /\
  async_parse_motion_alarm Z show "dev"
    (mk_message [] [("State", "true")]) = Raise IndexError /\
  sample_PARSERS !! "tns1:Monitoring/ProcessorUsage"
    = Some (async_parse_processor_usage Z show sample_float_beyond_ascii) /\
  async_parse_processor_usage Z show sample_float_beyond_ascii "dev"
    (monitoring_message "Value" "abc") = Raise ValueError.
Proof.
  split; [reflexivity|]. split; [vm_compute; reflexivity|].
  split; [vm_compute; reflexivity|]. split; [reflexivity|].
  vm_compute; reflexivity.
Qed.

Lemma parsers_swallow_attribute_and_key_errors_witness :
  sample_PARSERS !! "tns1:VideoSource/MotionAlarm"
    = Some (async_parse_motion_alarm Z show) /\
  async_parse_motion_alarm Z show "dev" (PObj [("Topic", PNone)]) = Ok None.
Proof.
  assert (H : sample_PARSERS !! "tns1:VideoSource/MotionAlarm"
              = Some (async_parse_motion_alarm Z show))
    by reflexivity.
  split; [exact H|].
  apply (proj1 (proj2 (parsers_swallow_attribute_and_key_errors
                         Z sample_parse_datetime sample_as_local show
                             sample_float_beyond_ascii
                         _ _ "dev" (PObj [("Topic", PNone)]) H))
           AttributeError).
  reflexivity.
Defined.

Lemma uid_determinism_witness :
  exists e1 e2,
    async_parse_cell_motion_detector Z show "dev" (rule_message "r1" "true")
      = Ok (Some e1) /\
    async_parse_cell_motion_detector Z show "dev" (rule_message "r2" "true")
      = Ok (Some e2) /\
    event_uid e1 <> event_uid e2.
Proof.
  apply (proj2 (uid_determinism Z sample_parse_datetime sample_as_local show
      sample_float_beyond_ascii)
           _ "dev" _ _
           (mk_value_1 [("VideoSourceConfigurationToken", "vsconf");
                        ("VideoAnalyticsConfigurationToken", "va");
                        ("Rule", "r1")] [("IsMotion", "true")])
           (mk_value_1 [("VideoSourceConfigurationToken", "vsconf");
                        ("VideoAnalyticsConfigurationToken", "va");
                        ("Rule", "r2")] [("IsMotion", "true")])
           (PStr "true") (PStr "true")
           [("VideoSourceConfigurationToken", "vsconf");
            ("VideoAnalyticsConfigurationToken", "va")] [] "r1" "r2").
  - unfold rule_parsers. do 2 right. left.
  - reflexivity.
  - reflexivity.
  - reflexivity.
  - reflexivity.
  - reflexivity.
  - reflexivity.
  - constructor.
  - vm_compute. intros [H | H]; discriminate H.
  - discriminate.
Defined.

Lemma boolean_coercion_per_topic_witness :
  yields_bool (async_parse_relay Z show "dev" (motion_message "true")) False.
Proof.
  refine (proj2 (proj2 (proj2 (proj1
    (boolean_coercion_per_topic Z show "dev" (motion_message "true")
       (mk_value_1 [("Source", "VideoSourceToken_1")] [("State", "true")])
       (PStr "true") _ _) (PStr "VideoSourceToken_1") _))) _);
    reflexivity.
Defined.

Lemma jobstate_active_capital_witness :
  yields_bool (async_parse_jobstate Z show "dev" (motion_message "active")) False.
Proof.
  refine (proj2
    (jobstate_active_capital Z show "dev" (motion_message "active")
       (mk_value_1 [("Source", "VideoSourceToken_1")] [("State", "active")])
       (PStr "VideoSourceToken_1") (PStr "active") _ _ _) _);
    try reflexivity.
  left. reflexivity.
Defined.

Lemma processor_usage_percent_witness :
  yields_value (async_parse_processor_usage Z show sample_float_beyond_ascii "dev"
                    (monitoring_message "Value" "0.42")) (VInt 42).
Proof.
  refine (proj1 (proj2
    (processor_usage_percent Z show
        sample_float_beyond_ascii "dev" (monitoring_message "Value" "0.42")
       (mk_value_1 [] [("Value", "0.42")]) "0.42" _ _)) _);
    reflexivity.
Defined.

Lemma datetime_parsers_invalid_value_witness :
  yields_value
    (async_parse_last_reboot Z sample_parse_datetime sample_as_local show "dev"
       (monitoring_message "Status" "0000-00-00T00:00:00Z"))
    (VPy PNone).
Proof.
  refine (proj1
    (datetime_parsers_invalid_value Z sample_parse_datetime sample_as_local show
       "dev" (monitoring_message "Status" "0000-00-00T00:00:00Z")
       (mk_value_1 [] [("Status", "0000-00-00T00:00:00Z")])
       (PStr "0000-00-00T00:00:00Z") _ _ _));
    try reflexivity.
  left. reflexivity.
Defined.

Lemma entity_enabled_defaults_witness :
  exists e,
    async_parse_last_reset Z sample_parse_datetime sample_as_local show "dev"
      (monitoring_message "Status" "1970-01-01T00:00:00Z") = Ok (Some e) /\
    value e = VDatetime 0 /\ entity_enabled e = false.
Proof.
  eexists. split; [reflexivity|]. split; [reflexivity|].
  refine (proj1 (proj2 (proj2
    (entity_enabled_defaults Z sample_parse_datetime sample_as_local show
       "dev" (monitoring_message "Status" "1970-01-01T00:00:00Z") _))) _).
  reflexivity.
Defined.

(** ** The further properties at concrete notifications *)

Arguments event_platform {datetime} e.
Arguments device_class {datetime} e.
Arguments entity_category {datetime} e.

(** A notification whose [Message._value_1] is [value_1], under a topic. *)
Definition message_of (value_1 : pyval) : pyval :=
  PObj [("Topic", PStr "tns1:VideoSource/MotionAlarm");
        ("Message", PObj [("_value_1", value_1)])].

(** Record objects with the given [Source.SimpleItem] and
    [Data.SimpleItem]. *)
Definition value_1_with (source data : pyval) : pyval :=
  PObj [("Source", PObj [("SimpleItem", source)]);
        ("Data", PObj [("SimpleItem", data)])].

Ltac first_of_list := apply list_elem_of_here.

Lemma rule_parsers_uid_witness :
  let items := [("VideoSourceConfigurationToken", "vsconf");
                ("VideoAnalyticsConfigurationToken", "va"); ("Rule", "line")] in
  exists e,
    async_parse_linedetector_crossed Z show "dev" (rule_message "line" "7")
      = Ok (Some e) /\
    event_uid e = "dev" +:+ "_"
      +:+ py_str show (mk_value_1 items [("IsMotion", "7")])
      +:+ "_" +:+ last_value "VideoSourceConfigurationToken" items
      +:+ "_" +:+ last_value "VideoAnalyticsConfigurationToken" items
      +:+ "_" +:+ last_value "Rule" items.
Proof.
  intros items.
  refine (proj1 (proj2 (rule_parsers_uid Z show "dev" (rule_message "line" "7")
                          (mk_value_1 items [("IsMotion", "7")]) (PStr "7") items
                          _ _ _))); reflexivity.
Defined.

Lemma detector_parsers_uid_witness :
  exists e,
    async_parse_dog_cat_detector Z show "dev"
      (mk_message [("Source", "vsconf")] [("State", "true")]) = Ok (Some e) /\
    event_uid e = "dev" +:+ "_"
      +:+ py_str show (mk_value_1 [("Source", "vsconf")] [("State", "true")])
      +:+ "_" +:+ normalized (last_value "Source" [("Source", "vsconf")]).
Proof.
  refine (proj2 (detector_parsers_uid Z show _ "dev"
                   (mk_message [("Source", "vsconf")] [("State", "true")])
                   (mk_value_1 [("Source", "vsconf")] [("State", "true")])
                   (PStr "true") [("Source", "vsconf")] _ _ _ _));
    first [first_of_list | reflexivity].
Defined.

Lemma nameless_source_item_drops_event_witness :
  async_parse_detected_sound Z show "dev"
    (message_of (value_1_with (PList [PNone]) (PList []))) = Ok None.
Proof.
  refine (nameless_source_item_drops_event Z show _ "dev"
            (message_of (value_1_with (PList [PNone]) (PList [])))
            (value_1_with (PList [PNone]) (PList [])) PNone [] [] _ _ _ _);
    first [first_of_list | reflexivity].
Defined.

Lemma empty_data_list_raises_witness :
  async_parse_motion_alarm Z show "dev"
    (mk_message [("Source", "VideoSourceToken_1")] []) = Raise IndexError.
Proof.
  refine (empty_data_list_raises Z sample_parse_datetime sample_as_local show
      sample_float_beyond_ascii
            "tns1:VideoSource/MotionAlarm" _ "dev"
            (mk_message [("Source", "VideoSourceToken_1")] [])
            (mk_value_1 [("Source", "VideoSourceToken_1")] [])
            [("Source", "VideoSourceToken_1")] _ _ _ _ _);
    first [discriminate | reflexivity].
Defined.

Lemma empty_source_list_witness :
  async_parse_motion_alarm Z show "dev"
    (mk_message [] [("State", "true")]) = Raise IndexError.
Proof.
  refine (proj1 (empty_source_list Z show "dev"
                   (mk_message [] [("State", "true")])
                   (mk_value_1 [] [("State", "true")]) _ _) _ _);
    first [first_of_list | reflexivity].
Defined.

Lemma event_value_kinds_witness :
  exists e,
    async_parse_motion_alarm Z show "dev" (motion_message "true") = Ok (Some e) /\
    (event_platform e = "binary_sensor" <-> exists b, value e = VBool b).
Proof.
  eexists. split; [vm_compute; reflexivity|].
  refine (proj1 (proj2 (event_value_kinds Z sample_parse_datetime sample_as_local
                          show
                              sample_float_beyond_ascii "tns1:VideoSource/MotionAlarm" _ "dev"
                          (motion_message "true") _ _ _)));
    [reflexivity | vm_compute; reflexivity].
Defined.

Lemma event_uid_prefix_witness :
  exists e value_1 rest,
    async_parse_motion_alarm Z show "dev" (motion_message "true") = Ok (Some e) /\
    value_1_of (motion_message "true") = Ok value_1 /\
    event_uid e = "dev" +:+ "_" +:+ py_str show value_1 +:+ rest.
Proof.
  eexists.
  assert (H : async_parse_motion_alarm Z show "dev" (motion_message "true")
              = Ok (Some _)) by (vm_compute; reflexivity).
  destruct (event_uid_prefix Z sample_parse_datetime sample_as_local show
      sample_float_beyond_ascii
              "tns1:VideoSource/MotionAlarm" _ "dev" (motion_message "true") _
              eq_refl H) as (value_1 & rest & Hv & Hu).
  exists value_1, rest. split; [exact H|]. split; [exact Hv | exact Hu].
Defined.

Lemma disabled_events_are_diagnostic_timestamps_witness :
  exists e,
    async_parse_last_reset Z sample_parse_datetime sample_as_local show "dev"
      (monitoring_message "Status" "1970-01-01T00:00:00Z") = Ok (Some e) /\
    event_platform e = "sensor" /\ device_class e = Some "timestamp" /\
    entity_category e = Some DIAGNOSTIC.
Proof.
  eexists. split; [vm_compute; reflexivity|].
  refine (disabled_events_are_diagnostic_timestamps Z sample_parse_datetime
            sample_as_local show
                sample_float_beyond_ascii "tns1:Monitoring/OperatingTime/LastReset" _ "dev"
            (monitoring_message "Status" "1970-01-01T00:00:00Z") _ _ _ _);
    [reflexivity | vm_compute; reflexivity | reflexivity].
Defined.

Lemma true_only_on_the_literals_witness :
  exists value_1 d,
    value_1_of (motion_message "active") = Ok value_1 /\
    data_anchor value_1 = Ok d /\
    (d = PStr "true" \/ d = PStr "active" \/ d = PStr "Active" \/ d = PStr "1").
Proof.
  refine (true_only_on_the_literals Z sample_parse_datetime sample_as_local show
      sample_float_beyond_ascii
            "tns1:Device/Trigger/Relay" _ "dev" (motion_message "active") _ _ _ _);
    [reflexivity | vm_compute; reflexivity | reflexivity].
Defined.

Lemma processor_usage_errors_witness :
  async_parse_processor_usage Z show
      sample_float_beyond_ascii "dev" (monitoring_message "Value" "abc")
  = Raise ValueError.
Proof.
  refine (proj1 (processor_usage_errors Z show sample_float_beyond_ascii "dev"
                   (monitoring_message "Value" "abc")
                   (mk_value_1 [] [("Value", "abc")]) _) "abc" _ _);
    [reflexivity | reflexivity | left; split; vm_compute; reflexivity].
Defined.

Lemma datetime_parsers_valid_value_witness :
  yields_value
    (async_parse_last_reboot Z sample_parse_datetime sample_as_local show "dev"
       (monitoring_message "Status" "1970-01-01T00:00:00Z"))
    (VDatetime 0).
Proof.
  refine (datetime_parsers_valid_value Z sample_parse_datetime sample_as_local
            show _ "dev" (monitoring_message "Status" "1970-01-01T00:00:00Z")
            (mk_value_1 [] [("Status", "1970-01-01T00:00:00Z")])
            (PStr "1970-01-01T00:00:00Z") 0 0 _ _ _ _ _);
    first [first_of_list | reflexivity].
Defined.

Lemma datetime_parsers_exceptions_witness :
  async_parse_last_reboot Z sample_parse_datetime sample_as_local show "dev"
    (message_of (value_1_with (PList []) (PList [PObj [("Value", PNone)]])))
  = Raise TypeError.
Proof.
  refine (proj2 (datetime_parsers_exceptions Z sample_parse_datetime
                   sample_as_local show _ "dev"
                   (message_of (value_1_with (PList [])
                                  (PList [PObj [("Value", PNone)]])))
                   (value_1_with (PList []) (PList [PObj [("Value", PNone)]]))
                   PNone TypeError _ _ _ _) _ _);
    first [first_of_list | discriminate | reflexivity | idtac].
  left. split; [reflexivity | discriminate].
Defined.

Lemma parsers_read_value_1_only_witness :
  async_parse_motion_alarm Z show "dev" (motion_message "true")
  = async_parse_motion_alarm Z show "dev"
      (message_of (mk_value_1 [("Source", "VideoSourceToken_1")]
                     [("State", "true")])).
Proof.
  refine (parsers_read_value_1_only Z sample_parse_datetime sample_as_local show
      sample_float_beyond_ascii
            "tns1:VideoSource/MotionAlarm" _ "dev" _ _
            (mk_value_1 [("Source", "VideoSourceToken_1")] [("State", "true")])
            _ _ _); reflexivity.
Defined.

Lemma anchor_parsers_uid_witness :
  exists e,
    async_parse_motion_alarm Z show "dev"
      (message_of (value_1_with (PList [PObj [("Value", PStr "tok")]; PNone])
                     (PList [simple_item ("State", "true")]))) = Ok (Some e) /\
    event_uid e = "dev" +:+ "_"
      +:+ py_str show (value_1_with (PList [PObj [("Value", PStr "tok")]; PNone])
                         (PList [simple_item ("State", "true")]))
      +:+ "_" +:+ py_str show (PStr "tok").
Proof.
  refine (anchor_parsers_uid Z show _ "dev" _
            (value_1_with (PList [PObj [("Value", PStr "tok")]; PNone])
               (PList [simple_item ("State", "true")]))
            (PObj [("Value", PStr "tok")]) (PStr "tok") (PStr "true") [PNone]
            _ _ _ _ _);
    first [first_of_list | reflexivity].
Defined.

Lemma none_for_lists_raises_witness :
  async_parse_motion_alarm Z show "dev"
    (message_of (value_1_with PNone PNone)) = Raise TypeError.
Proof.
  refine (none_for_lists_raises Z sample_parse_datetime sample_as_local show
      sample_float_beyond_ascii
            "tns1:VideoSource/MotionAlarm" _ "dev" _ (value_1_with PNone PNone)
            _ _ _ _); reflexivity.
Defined.
